(** * Bedrock text-generation adapter: a shallow embedding of [bedrock-app.py]

    The development models the three functions of the application that carry
    logic: [invoke_bedrock_model] (single-shot call), [invoke_bedrock_streaming]
    (generator over a response stream) and [calculate_cost], together with the
    [MODELS] table.  Python values are embedded as a small universe of
    JSON-shaped values, exceptions as data, the [try]/[except] blocks as an
    error monad with an explicit handler, the generator as the list of frames
    it yields, and Python floats as IEEE-754 binary64 numbers. *)

From Stdlib Require Import ZArith Bool List String Ascii Lia.
From Stdlib Require Import Floats.SpecFloat Floats.PrimFloat Floats.FloatOps.
Import ListNotations.

Set Warnings "-inexact-float,-notation-for-abbreviation,-register-all".

Local Open Scope string_scope.
Local Open Scope Z_scope.

(* ===================================================================== *)
(** ** Binary64 floating point *)
(* ===================================================================== *)

Module F64.

(** A Python [float] is an IEEE-754 binary64 number: 53 bits of precision,
    exponent bound 1024, round to nearest even. *)
Definition float64 := spec_float.

Definition prec : Z := 53.
Definition emax : Z := 1024.

Definition mul : float64 -> float64 -> float64 := SFmul prec emax.
Definition add : float64 -> float64 -> float64 := SFadd prec emax.
Definition div : float64 -> float64 -> float64 := SFdiv prec emax.

(** Python's [==] on floats. *)
Definition eqb : float64 -> float64 -> bool := SFeqb.

(** Finite (neither infinite nor NaN). *)
Definition is_finite (x : float64) : bool :=
  match x with
  | S754_zero _ | S754_finite _ _ _ => true
  | S754_infinity _ | S754_nan => false
  end.

(** Sign bit clear and not NaN: [+0.0], a positive number, or [+inf]. *)
Definition is_nonneg (x : float64) : bool :=
  match x with
  | S754_zero s | S754_finite s _ _ | S754_infinity s => negb s
  | S754_nan => false
  end.

(** The integer [n] as the unnormalised pair (mantissa [n], exponent 0). *)
Definition of_int_raw (n : Z) : float64 :=
  match n with
  | Z0 => S754_zero false
  | Zpos p => S754_finite false p 0
  | Zneg p => S754_finite true p 0
  end.

(** The float literals of the source, as the doubles they denote. *)
Definition lit_0_9     : float64 := Eval vm_compute in Prim2SF 0.9%float.
Definition lit_0_5     : float64 := Eval vm_compute in Prim2SF 0.5%float.
Definition lit_0_7     : float64 := Eval vm_compute in Prim2SF 0.7%float.
Definition lit_0_003   : float64 := Eval vm_compute in Prim2SF 0.003%float.
Definition lit_0_015   : float64 := Eval vm_compute in Prim2SF 0.015%float.
Definition lit_0_00025 : float64 := Eval vm_compute in Prim2SF 0.00025%float.
Definition lit_0_00125 : float64 := Eval vm_compute in Prim2SF 0.00125%float.
Definition lit_0_00195 : float64 := Eval vm_compute in Prim2SF 0.00195%float.
Definition lit_0_00256 : float64 := Eval vm_compute in Prim2SF 0.00256%float.
Definition lit_0_0008  : float64 := Eval vm_compute in Prim2SF 0.0008%float.
Definition lit_0_0016  : float64 := Eval vm_compute in Prim2SF 0.0016%float.
Definition lit_0_018   : float64 := Eval vm_compute in Prim2SF 0.018%float.

End F64.

Notation float64 := F64.float64.

(* ===================================================================== *)
(** ** Python values, exceptions and the error monad *)
(* ===================================================================== *)

(** The values [json.loads] produces and [json.dumps] accepts.  A [dict] is
    kept as an association list in insertion order; lookup takes the first
    binding of a key. *)
Inductive pyval : Type :=
| PyNone
| PyBool (b : bool)
| PyInt (n : Z)
| PyFloat (x : float64)
| PyStr (s : string)
| PyList (xs : list pyval)
| PyDict (kvs : list (string * pyval)).

(** A raised exception: its class name and [str(e)].  Every exception of the
    model is an instance of [Exception], so the handlers
    [except Exception as e] of the source catch all of them. *)
Record exn : Type := Exn { exn_class : string; exn_str : string }.

(** [result A]: a computation either raises or returns a value. *)
Definition result (A : Type) : Type := (exn + A)%type.

Definition ret {A} (a : A) : result A := inr a.
Definition raise {A} (e : exn) : result A := inl e.
Definition bind {A B} (c : result A) (k : A -> result B) : result B :=
  match c with
  | inl e => inl e
  | inr a => k a
  end.

Notation "x <- c ;; k" := (bind c (fun x => k))
  (at level 61, c at next level, right associativity).

Module Py.

Definition squote : string := "'".
Definition dquote : string := String (ascii_of_nat 34) EmptyString.

(** [type(v).__name__] *)
Definition type_name (v : pyval) : string :=
  match v with
  | PyNone => "NoneType"
  | PyBool _ => "bool"
  | PyInt _ => "int"
  | PyFloat _ => "float"
  | PyStr _ => "str"
  | PyList _ => "list"
  | PyDict _ => "dict"
  end.

(** [repr] of a key without quote characters, as all keys of the source. *)
Definition repr_str (k : string) : string := squote ++ k ++ squote.

(** The exceptions the interpreter raises in the modelled code, with the
    message wording of CPython 3.11. *)
Definition UnboundLocalError (var : string) : exn :=
  Exn "UnboundLocalError"
      ("cannot access local variable " ++ repr_str var
       ++ " where it is not associated with a value").
Definition KeyError (shown : string) : exn := Exn "KeyError" shown.
Definition IndexError (what : string) : exn :=
  Exn "IndexError" (what ++ " index out of range").
Definition TypeError (msg : string) : exn := Exn "TypeError" msg.
Definition AttributeError (v : pyval) (attr : string) : exn :=
  Exn "AttributeError"
      (repr_str (type_name v) ++ " object has no attribute " ++ repr_str attr).
Definition not_subscriptable (v : pyval) : exn :=
  TypeError (repr_str (type_name v) ++ " object is not subscriptable").

(** First binding of [k] in a dict. *)
Fixpoint dict_get (k : string) (kvs : list (string * pyval)) : option pyval :=
  match kvs with
  | [] => None
  | (k', v) :: rest => if String.eqb k k' then Some v else dict_get k rest
  end.

(** [v[k]] for a string key [k]. *)
Definition getitem (v : pyval) (k : string) : result pyval :=
  match v with
  | PyDict kvs =>
      match dict_get k kvs with
      | Some x => ret x
      | None => raise (KeyError (repr_str k))
      end
  | PyList _ => raise (TypeError "list indices must be integers or slices, not str")
  | PyStr _ => raise (TypeError "string indices must be integers, not 'str'")
  | _ => raise (not_subscriptable v)
  end.

(** [v[0]].  The keys of a parsed JSON object are strings, so the integer
    key 0 is never present in a dict. *)
Definition getitem0 (v : pyval) : result pyval :=
  match v with
  | PyList (x :: _) => ret x
  | PyList [] => raise (IndexError "list")
  | PyStr (String c _) => ret (PyStr (String c EmptyString))
  | PyStr EmptyString => raise (IndexError "string")
  | PyDict _ => raise (KeyError "0")
  | _ => raise (not_subscriptable v)
  end.

(** [v.get(k, default)] *)
Definition get (v : pyval) (k : string) (default : pyval) : result pyval :=
  match v with
  | PyDict kvs =>
      match dict_get k kvs with
      | Some x => ret x
      | None => ret default
      end
  | _ => raise (AttributeError v "get")
  end.

(** [v == s] for a string literal [s]. *)
Definition eq_str (v : pyval) (s : string) : bool :=
  match v with
  | PyStr t => String.eqb t s
  | _ => false
  end.

(** [acc += v] where [acc] is a [str]. *)
Definition str_iadd (acc : string) (v : pyval) : result string :=
  match v with
  | PyStr s => ret (acc ++ s)
  | _ => raise (TypeError ("can only concatenate str (not " ++ dquote
                           ++ type_name v ++ dquote ++ ") to str"))
  end.

(** [needle in hay] on strings: [needle] occurs at some position. *)
Fixpoint str_in (needle hay : string) : bool :=
  if String.prefix needle hay then true
  else match hay with
       | EmptyString => false
       | String _ rest => str_in needle rest
       end.

(** Reading a local variable that may not have been assigned. *)
Definition read_local {A} (name : string) (v : option A) : result A :=
  match v with
  | Some a => ret a
  | None => raise (UnboundLocalError name)
  end.

End Py.

(* ===================================================================== *)
(** ** The inference transport *)
(* ===================================================================== *)

(** The iterator [response['body']] of a streaming call, step by step: it
    ends, raises, or delivers one more event.  The event is given by the
    outcome of [json.loads(event['chunk']['bytes'])]: the parsed chunk, or the
    exception raised while extracting or parsing it. *)
Inductive event_stream : Type :=
| StreamEnd
| StreamRaise (e : exn)
| StreamEvent (chunk : result pyval) (rest : event_stream).

(** The boto3 client.  [invoke_model model_id body] stands for the call
    [client.invoke_model(modelId=..., body=json.dumps(body), contentType=...)]
    followed by [json.loads(response['body'].read())]: it gives the parsed
    response body, or the exception raised by the call, the read or the parse.
    [invoke_model_with_response_stream] stands for the streaming call followed
    by [response['body']].  The body is passed as the value that [json.dumps]
    serialises. *)
Record client : Type := Client {
  invoke_model : string -> pyval -> result pyval;
  invoke_model_with_response_stream : string -> pyval -> result event_stream
}.

(* ===================================================================== *)
(** ** [MODELS] *)
(* ===================================================================== *)

Record model_config : Type := ModelConfig {
  cfg_id : string;
  input_price_per_1k : float64;
  output_price_per_1k : float64;
  cfg_max_tokens : Z;
  description : string
}.

Definition MODELS : list (string * model_config) :=
  [ ("Claude 3 Sonnet",
     ModelConfig "anthropic.claude-3-sonnet-20240229-v1:0"
                 F64.lit_0_003 F64.lit_0_015 4096
                 "Best for reasoning, analysis, creative writing");
    ("Claude 3 Haiku",
     ModelConfig "anthropic.claude-3-haiku-20240307-v1:0"
                 F64.lit_0_00025 F64.lit_0_00125 4096
                 "Fastest and most cost-effective");
    ("Llama 2 70B",
     ModelConfig "meta.llama2-70b-chat-v1"
                 F64.lit_0_00195 F64.lit_0_00256 2048
                 "Open-source, good for general tasks");
    ("Titan Text G1 - Express",
     ModelConfig "amazon.titan-text-express-v1"
                 F64.lit_0_0008 F64.lit_0_0016 8192
                 "AWS native, cost-effective for basic tasks") ].

(** [MODELS[name]] *)
Fixpoint models_get (name : string) (table : list (string * model_config))
  : option model_config :=
  match table with
  | [] => None
  | (n, c) :: rest => if String.eqb name n then Some c else models_get name rest
  end.

(* ===================================================================== *)
(** ** Model families *)
(* ===================================================================== *)

(** The three request and response formats.  The source has no such type: it
    repeats the chain [if 'anthropic.claude' in model_id ... elif
    'meta.llama2' in model_id ... elif 'amazon.titan' in model_id] at each of
    its four dispatch sites.  [family_of] is that chain on its own. *)
Inductive family : Type := Chat | InstructionTag | FieldNamed.

Definition family_of (model_id : string) : option family :=
  if Py.str_in "anthropic.claude" model_id then Some Chat
  else if Py.str_in "meta.llama2" model_id then Some InstructionTag
  else if Py.str_in "amazon.titan" model_id then Some FieldNamed
  else None.

(** The dispatch rule in the words of the specification: a match of the
    family name at the start of the identifier. *)
Definition family_by_prefix (wire_id : string) : option family :=
  if String.prefix "anthropic.claude" wire_id then Some Chat
  else if String.prefix "meta.llama2" wire_id then Some InstructionTag
  else if String.prefix "amazon.titan" wire_id then Some FieldNamed
  else None.

(* ===================================================================== *)
(** ** [invoke_bedrock_model] *)
(* ===================================================================== *)

(** The dict returned by [invoke_bedrock_model]; the key ['error'] is present
    on the failure path only. *)
Record GenerationResult : Type := MkResult {
  text : pyval;
  input_tokens : pyval;
  output_tokens : pyval;
  success : bool;
  error : option string
}.

(** The defaults of the signature: [max_tokens=1000, temperature=0.7]. *)
Definition default_max_tokens : Z := 1000.
Definition default_temperature : F64.float64 := F64.lit_0_7.

(** Lines 54-82: the local [body] after the first [if] chain; [None] when no
    branch assigned it. *)
Definition model_request_body
  (model_id prompt : string) (max_tokens : Z) (temperature : float64)
  : option pyval :=
  if Py.str_in "anthropic.claude" model_id then
    Some (PyDict
      [ ("anthropic_version", PyStr "bedrock-2023-05-31");
        ("messages",
         PyList [ PyDict [ ("role", PyStr "user"); ("content", PyStr prompt) ] ]);
        ("max_tokens", PyInt max_tokens);
        ("temperature", PyFloat temperature) ])
  else if Py.str_in "meta.llama2" model_id then
    Some (PyDict
      [ ("prompt", PyStr ("<s>[INST] " ++ prompt ++ " [/INST]"));
        ("max_gen_len", PyInt max_tokens);
        ("temperature", PyFloat temperature);
        ("top_p", PyFloat F64.lit_0_9) ])
  else if Py.str_in "amazon.titan" model_id then
    Some (PyDict
      [ ("inputText", PyStr prompt);
        ("textGenerationConfig",
         PyDict [ ("maxTokenCount", PyInt max_tokens);
                  ("temperature", PyFloat temperature);
                  ("topP", PyInt 1);
                  ("stopSequences", PyList []) ]) ])
  else None.

(** Lines 94-105: the locals [text], [input_tokens], [output_tokens] after the
    second [if] chain. *)
Definition parse_response (model_id : string) (response_body : pyval)
  : result (option pyval * option pyval * option pyval) :=
  if Py.str_in "anthropic.claude" model_id then
    content <- Py.getitem response_body "content" ;;
    block <- Py.getitem0 content ;;
    t <- Py.getitem block "text" ;;
    usage <- Py.getitem response_body "usage" ;;
    i <- Py.getitem usage "input_tokens" ;;
    usage' <- Py.getitem response_body "usage" ;;
    o <- Py.getitem usage' "output_tokens" ;;
    ret (Some t, Some i, Some o)
  else if Py.str_in "meta.llama2" model_id then
    t <- Py.getitem response_body "generation" ;;
    i <- Py.get response_body "prompt_token_count" (PyInt 0) ;;
    o <- Py.get response_body "generation_token_count" (PyInt 0) ;;
    ret (Some t, Some i, Some o)
  else if Py.str_in "amazon.titan" model_id then
    results <- Py.getitem response_body "results" ;;
    first <- Py.getitem0 results ;;
    t <- Py.getitem first "outputText" ;;
    i <- Py.getitem response_body "inputTextTokenCount" ;;
    results' <- Py.getitem response_body "results" ;;
    first' <- Py.getitem0 results' ;;
    o <- Py.getitem first' "tokenCount" ;;
    ret (Some t, Some i, Some o)
  else ret (None, None, None).

(** Lines 107-112: the success dict, built from the three locals. *)
Definition success_result (locals : option pyval * option pyval * option pyval)
  : result GenerationResult :=
  let '(t, i, o) := locals in
  t' <- Py.read_local "text" t ;;
  i' <- Py.read_local "input_tokens" i ;;
  o' <- Py.read_local "output_tokens" o ;;
  ret (MkResult t' i' o' true None).

(** Lines 53-112: the body of the [try] block. *)
Definition invoke_bedrock_model_try
  (c : client) (model_id prompt : string) (max_tokens : Z) (temperature : float64)
  : result GenerationResult :=
  let body := model_request_body model_id prompt max_tokens temperature in
  payload <- Py.read_local "body" body ;;
  response_body <- invoke_model c model_id payload ;;
  locals <- parse_response model_id response_body ;;
  success_result locals.

(** Lines 114-121: the dict built by the handler. *)
Definition error_result (e : exn) : GenerationResult :=
  MkResult (PyStr ("Error: " ++ exn_str e)) (PyInt 0) (PyInt 0) false
           (Some (exn_str e)).

Definition invoke_bedrock_model
  (c : client) (model_id prompt : string) (max_tokens : Z) (temperature : float64)
  : GenerationResult :=
  match invoke_bedrock_model_try c model_id prompt max_tokens temperature with
  | inr r => r
  | inl e => error_result e
  end.

(* ===================================================================== *)
(** ** [invoke_bedrock_streaming] *)
(* ===================================================================== *)

(** What a consumer observes when it drains a generator: the frames yielded,
    in order, and the exception that ended the iteration, if any. *)
Record gen_run : Type := GenRun {
  yielded : list string;
  raised : option exn
}.

(** Lines 128-150: the local [body] of the streaming entry point. *)
Definition streaming_request_body
  (model_id prompt : string) (max_tokens : Z) (temperature : float64)
  : option pyval :=
  if Py.str_in "anthropic.claude" model_id then
    Some (PyDict
      [ ("anthropic_version", PyStr "bedrock-2023-05-31");
        ("messages",
         PyList [ PyDict [ ("role", PyStr "user"); ("content", PyStr prompt) ] ]);
        ("max_tokens", PyInt max_tokens);
        ("temperature", PyFloat temperature) ])
  else if Py.str_in "meta.llama2" model_id then
    Some (PyDict
      [ ("prompt", PyStr ("<s>[INST] " ++ prompt ++ " [/INST]"));
        ("max_gen_len", PyInt max_tokens);
        ("temperature", PyFloat temperature);
        ("top_p", PyFloat F64.lit_0_9) ])
  else if Py.str_in "amazon.titan" model_id then
    Some (PyDict
      [ ("inputText", PyStr prompt);
        ("textGenerationConfig",
         PyDict [ ("maxTokenCount", PyInt max_tokens);
                  ("temperature", PyFloat temperature);
                  ("topP", PyInt 1) ]) ])
  else None.

(** Lines 164-170: the new value of [full_text] after one parsed chunk. *)
Definition append_chunk (model_id full_text : string) (chunk : pyval)
  : result string :=
  if Py.str_in "anthropic.claude" model_id then
    ty <- Py.getitem chunk "type" ;;
    if Py.eq_str ty "content_block_delta" then
      delta <- Py.getitem chunk "delta" ;;
      t <- Py.getitem delta "text" ;;
      Py.str_iadd full_text t
    else ret full_text
  else if Py.str_in "meta.llama2" model_id then
    t <- Py.get chunk "generation" (PyStr EmptyString) ;;
    Py.str_iadd full_text t
  else if Py.str_in "amazon.titan" model_id then
    t <- Py.get chunk "outputText" (PyStr EmptyString) ;;
    Py.str_iadd full_text t
  else ret full_text.

(** Lines 161-172: the [for] loop, started with the current [full_text]. *)
Fixpoint stream_loop (model_id full_text : string) (s : event_stream) : gen_run :=
  match s with
  | StreamEnd => GenRun [] None
  | StreamRaise e => GenRun [] (Some e)
  | StreamEvent ev rest =>
      match (chunk <- ev ;; append_chunk model_id full_text chunk) with
      | inl e => GenRun [] (Some e)
      | inr full_text' =>
          let r := stream_loop model_id full_text' rest in
          GenRun (full_text' :: yielded r) (raised r)
      end
  end.

(** Lines 127-172: the body of the [try] block. *)
Definition invoke_bedrock_streaming_try
  (c : client) (model_id prompt : string) (max_tokens : Z) (temperature : float64)
  : gen_run :=
  let body := streaming_request_body model_id prompt max_tokens temperature in
  match (payload <- Py.read_local "body" body ;;
         invoke_model_with_response_stream c model_id payload) with
  | inl e => GenRun [] (Some e)
  | inr s => stream_loop model_id EmptyString s
  end.

(** Line 175: the frame yielded by the handler. *)
Definition error_frame (e : exn) : string := "Streaming Error: " ++ exn_str e.

Definition invoke_bedrock_streaming
  (c : client) (model_id prompt : string) (max_tokens : Z) (temperature : float64)
  : gen_run :=
  let r := invoke_bedrock_streaming_try c model_id prompt max_tokens temperature in
  match raised r with
  | None => r
  | Some e => GenRun (yielded r ++ [error_frame e]) None
  end.

(* ===================================================================== *)
(** ** [calculate_cost] *)
(* ===================================================================== *)

Definition ZeroDivisionError : exn := Exn "ZeroDivisionError" "division by zero".
Definition OverflowError : exn :=
  Exn "OverflowError" "integer division result too large for a float".

(** [a / b] on two [int]s: the quotient rounded once, to nearest even. *)
Definition int_true_div (a b : Z) : result float64 :=
  if b =? 0 then raise ZeroDivisionError
  else
    match F64.div (F64.of_int_raw a) (F64.of_int_raw b) with
    | S754_infinity _ => raise OverflowError
    | q => ret q
    end.

Definition calculate_cost (input_tokens output_tokens : Z) (config : model_config)
  : result float64 :=
  a <- int_true_div input_tokens 1000 ;;
  let input_cost := F64.mul a (input_price_per_1k config) in
  b <- int_true_div output_tokens 1000 ;;
  let output_cost := F64.mul b (output_price_per_1k config) in
  ret (F64.add input_cost output_cost).

(** The formula of the specification, on values that are already floats. *)
Definition cost_formula (x y pin pout : float64) : float64 :=
  F64.add (F64.mul x pin) (F64.mul y pout).

(* ===================================================================== *)
(** ** [main]: the handler of the generate button *)
(* ===================================================================== *)

(** [calculate_cost] and [len] as [main] applies them: to the values of a
    result dict, whatever their types. *)

(** [v / 1000] for a value [v]: Python divides an [int] or a [bool] as an
    integer, a [float] as a float, and rejects every other type. *)
Definition div_by_1000 (v : pyval) : result F64.float64 :=
  match v with
  | PyInt n => int_true_div n 1000
  | PyBool b => int_true_div (Z.b2z b) 1000
  | PyFloat x => ret (F64.div x (F64.of_int_raw 1000))
  | _ => raise (Py.TypeError ("unsupported operand type(s) for /: "
                              ++ Py.repr_str (Py.type_name v) ++ " and 'int'"))
  end.

(** Lines 177-181 on values of any type. *)
Definition calculate_cost_dyn (input_tokens output_tokens : pyval)
  (config : model_config) : result F64.float64 :=
  a <- div_by_1000 input_tokens ;;
  let input_cost := F64.mul a (input_price_per_1k config) in
  b <- div_by_1000 output_tokens ;;
  let output_cost := F64.mul b (output_price_per_1k config) in
  ret (F64.add input_cost output_cost).

(** [len(v)]; a dict counts its distinct keys. *)
Definition py_len (v : pyval) : result nat :=
  match v with
  | PyStr s => ret (String.length s)
  | PyList xs => ret (List.length xs)
  | PyDict kvs => ret (List.length (nodup string_dec (map fst kvs)))
  | _ => raise (Py.TypeError ("object of type " ++ Py.repr_str (Py.type_name v)
                              ++ " has no len()"))
  end.

(** [end_time - start_time] *)
Definition float_sub : F64.float64 -> F64.float64 -> F64.float64 :=
  SFsub F64.prec F64.emax.

(** What the handler puts on the page: [response_placeholder.markdown(...)],
    [st.markdown(...)] and [st.error(...)].  Static page elements (headers,
    spinner) are left out. *)
Inductive ui_event : Type :=
| PlaceholderMarkdown (frame : string)
| Markdown (content : pyval)
| ErrorBox (message : string).

(** Lines 324-333: one entry of [st.session_state.usage_history].  The
    timestamp is the reading of [datetime.now()]. *)
Record usage_data : Type := UsageData {
  usage_timestamp : Z;
  usage_model : string;
  prompt_length : nat;
  response_length : nat;
  usage_input_tokens : pyval;
  usage_output_tokens : pyval;
  usage_cost : F64.float64;
  response_time : F64.float64
}.

(** The page after the handler ran: what it displayed, the usage history, and
    the exception that left the handler, if any. *)
Record page : Type := Page {
  shown : list ui_event;
  usage_history : list usage_data;
  uncaught : option exn
}.

(** The loop variable [partial_response] after the [for] loop: the last frame,
    unassigned when there was none. *)
Definition last_frame (frames : list string) : option string :=
  fold_left (fun _ frame => Some frame) frames None.

(** Lines 288-301: streaming mode.  Gives the displayed elements and the
    local [final_response]. *)
Definition main_streaming
  (c : client) (config : model_config) (prompt : string)
  (max_tokens : Z) (temperature : F64.float64) : list ui_event * string :=
  let run := invoke_bedrock_streaming c (cfg_id config) prompt max_tokens temperature in
  let rendered := map PlaceholderMarkdown (yielded run) in
  match (match raised run with
         | Some e => raise e
         | None => Py.read_local "partial_response" (last_frame (yielded run))
         end) with
  | inr final_response => (rendered, final_response)
  | inl e =>
      ((rendered ++ [ErrorBox ("Streaming error: " ++ exn_str e)%string])%list,
       EmptyString)
  end.

(** Lines 305-337: non-streaming mode. *)
Definition main_single_shot
  (c : client) (selected_model : string) (config : model_config) (prompt : string)
  (max_tokens : Z) (temperature : F64.float64)
  (start_time end_time : F64.float64) (now : Z) (history : list usage_data)
  : page :=
  let result := invoke_bedrock_model c (cfg_id config) prompt max_tokens temperature in
  if success result then
    let response_time := float_sub end_time start_time in
    match (cost <- calculate_cost_dyn (input_tokens result) (output_tokens result)
                                      config ;;
           len_text <- py_len (text result) ;;
           ret (UsageData now selected_model (String.length prompt) len_text
                          (input_tokens result) (output_tokens result)
                          cost response_time)) with
    | inr usage => Page [Markdown (text result)] (history ++ [usage]) None
    | inl e => Page [Markdown (text result)] history (Some e)
    end
  else
    match error result with
    | Some cause => Page [ErrorBox ("Generation failed: " ++ cause)] history None
    | None => Page [] history (Some (Py.KeyError (Py.repr_str "error")))
    end.

(** Lines 276-337: the handler of the generate button. *)
Definition main_generate
  (streaming_mode : bool)
  (c : client) (selected_model : string) (config : model_config) (prompt : string)
  (max_tokens : Z) (temperature : F64.float64)
  (start_time end_time : F64.float64) (now : Z) (history : list usage_data)
  : page :=
  match prompt with
  | EmptyString => Page [] history None
  | _ =>
      if streaming_mode then
        Page (fst (main_streaming c config prompt max_tokens temperature)) history None
      else
        main_single_shot c selected_model config prompt max_tokens temperature
                         start_time end_time now history
  end.

(* ===================================================================== *)
(** ** Test doubles and sample data *)
(* ===================================================================== *)

(** A transport that answers every call with fixed outcomes. *)
Definition const_client (single : result pyval) (stream : result event_stream)
  : client :=
  Client (fun _ _ => single) (fun _ _ => stream).

Definition haiku_id : string := "anthropic.claude-3-haiku-20240307-v1:0".

(** [{content:[{text:"Hello!"}], usage:{input_tokens:2, output_tokens:3}}] *)
Definition hello_response : pyval :=
  PyDict [ ("content", PyList [ PyDict [ ("text", PyStr "Hello!") ] ]);
           ("usage", PyDict [ ("input_tokens", PyInt 2);
                              ("output_tokens", PyInt 3) ]) ].

Definition hi_chat_payload : pyval :=
  PyDict
    [ ("anthropic_version", PyStr "bedrock-2023-05-31");
      ("messages",
       PyList [ PyDict [ ("role", PyStr "user"); ("content", PyStr "Hi") ] ]);
      ("max_tokens", PyInt 50);
      ("temperature", PyFloat F64.lit_0_5) ].

Definition llama_id : string := "meta.llama2-70b-chat-v1".
Definition titan_id : string := "amazon.titan-text-express-v1".

(** A cross-region inference-profile identifier of the same Haiku model. *)
Definition haiku_profile_id : string := "us.anthropic.claude-3-haiku-20240307-v1:0".

(** A [content_block_delta] chunk of the Chat family. *)
Definition delta_chunk (t : string) : pyval :=
  PyDict [ ("type", PyStr "content_block_delta");
           ("delta", PyDict [ ("type", PyStr "text_delta"); ("text", PyStr t) ]) ].

Definition connection_reset : exn := Exn "EventStreamError" "reset".

(* ===================================================================== *)
(** ** Vocabulary of the statements *)
(* ===================================================================== *)

(** [needle] occurs somewhere in [hay]. *)
Definition occurs (needle hay : string) : Prop :=
  exists before after, hay = before ++ needle ++ after.

(** [b] is [a] followed by some more text. *)
Definition extends (a b : string) : Prop := exists d, b = a ++ d.

(** [R] holds between each element of a list and its successor. *)
Fixpoint adjacent {A} (R : A -> A -> Prop) (l : list A) : Prop :=
  match l with
  | a :: (b :: _) as rest => R a b /\ adjacent R rest
  | _ => True
  end.

(** The events [evs], in order, and then the stream [tail]. *)
Fixpoint events_then (evs : list (result pyval)) (tail : event_stream)
  : event_stream :=
  match evs with
  | [] => tail
  | ev :: rest => StreamEvent ev (events_then rest tail)
  end.

(** The shape of the dict built by the handler of [invoke_bedrock_model]. *)
Definition failure_with (cause : string) : GenerationResult :=
  MkResult (PyStr ("Error: " ++ cause)) (PyInt 0) (PyInt 0) false (Some cause).

(** A transport that answers the Chat scenario and streams nothing. *)
Definition canned_client : client :=
  const_client (inr hello_response) (inr StreamEnd).

(** A stream that delivers two text deltas and then breaks. *)
Definition broken_stream : event_stream :=
  events_then [ inr (delta_chunk "Hello"); inr (delta_chunk ", world") ]
              (StreamRaise connection_reset).

(** A stream that delivers one long delta and then breaks. *)
Definition long_then_broken : event_stream :=
  StreamEvent (inr (delta_chunk "Hello, world! How are you today?"))
              (StreamRaise connection_reset).

(** The pricing of the [MODELS] entry of Claude 3 Sonnet. *)
Definition sonnet_config : model_config :=
  ModelConfig "anthropic.claude-3-sonnet-20240229-v1:0"
              F64.lit_0_003 F64.lit_0_015 4096
              "Best for reasoning, analysis, creative writing".

(** A pricing whose input price is [float('inf')]. *)
Definition unbounded_price_config : model_config :=
  ModelConfig "anthropic.claude-3-sonnet-20240229-v1:0"
              (S754_infinity false) F64.lit_0_015 4096 EmptyString.

(** One streamed chunk that carries the text [t], in the format of each
    family. *)
Definition text_chunk (f : family) (t : string) : pyval :=
  match f with
  | Chat =>
      PyDict [ ("type", PyStr "content_block_delta");
               ("delta", PyDict [ ("type", PyStr "text_delta"); ("text", PyStr t) ]) ]
  | InstructionTag => PyDict [ ("generation", PyStr t) ]
  | FieldNamed => PyDict [ ("outputText", PyStr t) ]
  end.

(** A complete response with text [t] and token counts [i] and [o], in the
    format of each family. *)
Definition full_response (f : family) (t i o : pyval) : pyval :=
  match f with
  | Chat =>
      PyDict [ ("content", PyList [ PyDict [ ("type", PyStr "text"); ("text", t) ] ]);
               ("usage", PyDict [ ("input_tokens", i); ("output_tokens", o) ]) ]
  | InstructionTag =>
      PyDict [ ("generation", t);
               ("prompt_token_count", i);
               ("generation_token_count", o) ]
  | FieldNamed =>
      PyDict [ ("inputTextTokenCount", i);
               ("results", PyList [ PyDict [ ("tokenCount", o); ("outputText", t) ] ]) ]
  end.

(** The texts [ts] appended one after the other to [acc]: every intermediate
    value, and the final one. *)
Fixpoint running_concat (acc : string) (ts : list string) : list string :=
  match ts with
  | [] => []
  | t :: rest => (acc ++ t) :: running_concat (acc ++ t) rest
  end.

Definition join_texts (ts : list string) : string :=
  fold_right String.append EmptyString ts.

(** [int], [bool] and [float]: the types Python divides by an integer. *)
Definition is_number (v : pyval) : bool :=
  match v with
  | PyInt _ | PyBool _ | PyFloat _ => true
  | _ => false
  end.

Definition is_dict (v : pyval) : bool :=
  match v with
  | PyDict _ => true
  | _ => false
  end.

(* ===================================================================== *)
(** * Properties *)
(* ===================================================================== *)

(** C7. Chat scenario: for Claude 3 Haiku, prompt "Hi", max_tokens 50 and
    temperature 0.5, the request body holds the fixed protocol version, exactly
    one user message with the verbatim prompt, max_tokens 50 and temperature
    0.5; and the response
    [{content:[{text:"Hello!"}], usage:{input_tokens:2, output_tokens:3}}]
    decodes to text "Hello!", 2 input tokens, 3 output tokens, success. *)
Theorem chat_scenario :
  option_map cfg_id (models_get "Claude 3 Haiku" MODELS) = Some haiku_id
  /\ model_request_body haiku_id "Hi" 50 F64.lit_0_5 = Some hi_chat_payload
  /\ (locals <- parse_response haiku_id hello_response ;; success_result locals)
     = inr (MkResult (PyStr "Hello!") (PyInt 2) (PyInt 3) true None)
  /\ forall c : client,
       invoke_model c haiku_id hi_chat_payload = inr hello_response ->
       invoke_bedrock_model c haiku_id "Hi" 50 F64.lit_0_5
       = MkResult (PyStr "Hello!") (PyInt 2) (PyInt 3) true None.
Proof.
  repeat split; try reflexivity.
  intros c Hc.
  unfold invoke_bedrock_model, invoke_bedrock_model_try.
  change (model_request_body haiku_id "Hi" 50 F64.lit_0_5) with (Some hi_chat_payload).
  cbn [Py.read_local bind ret]. rewrite Hc. reflexivity.
Qed.

Lemma chat_scenario_witness :
  invoke_bedrock_model
    (const_client (inr hello_response) (inr StreamEnd)) haiku_id "Hi" 50 F64.lit_0_5
  = MkResult (PyStr "Hello!") (PyInt 2) (PyInt 3) true None.
Proof.
  apply (proj2 (proj2 (proj2 chat_scenario))). reflexivity.
Defined.

(* --------------------------------------------------------------------- *)
(** ** Strings *)
(* --------------------------------------------------------------------- *)

Lemma append_nil_r (s : string) : s ++ EmptyString = s.
Proof. induction s as [|c s IH]; simpl; [reflexivity | now rewrite IH]. Qed.

Lemma append_assoc (a b c : string) : (a ++ b) ++ c = a ++ b ++ c.
Proof. induction a as [|x a IH]; simpl; [reflexivity | now rewrite IH]. Qed.

Lemma length_append (a b : string) :
  String.length (a ++ b) = (String.length a + String.length b)%nat.
Proof. induction a as [|x a IH]; simpl; [reflexivity | now rewrite IH]. Qed.

Lemma prefix_iff (n h : string) :
  String.prefix n h = true <-> exists rest, h = n ++ rest.
Proof.
  revert h; induction n as [|a n IH]; intros h.
  - split; [intros _; exists h; reflexivity | intros _; destruct h; reflexivity].
  - destruct h as [|b h]; simpl.
    + split; [discriminate | intros [r Hr]; discriminate].
    + destruct (ascii_dec a b) as [->|Hab].
      * rewrite IH. split; intros [r Hr]; exists r; [now rewrite Hr | now inversion Hr].
      * split; [discriminate | intros [r Hr]; inversion Hr; congruence].
Qed.

Lemma str_in_unfold (n h : string) :
  Py.str_in n h =
  if String.prefix n h then true
  else match h with
       | EmptyString => false
       | String _ rest => Py.str_in n rest
       end.
Proof. destruct h; reflexivity. Qed.

Lemma prefix_occurs (n h : string) : String.prefix n h = true -> occurs n h.
Proof.
  intros Hp. apply prefix_iff in Hp. destruct Hp as [r Hr].
  exists EmptyString, r. exact Hr.
Qed.

Lemma str_in_iff (n h : string) : Py.str_in n h = true <-> occurs n h.
Proof.
  induction h as [|c h IH]; rewrite str_in_unfold.
  - destruct (String.prefix n EmptyString) eqn:Hp.
    + split; [intros _; now apply prefix_occurs | reflexivity].
    + split; [discriminate|].
      intros (a & b & Hab). destruct a; [|discriminate].
      assert (String.prefix n EmptyString = true) by (apply prefix_iff; now exists b).
      congruence.
  - destruct (String.prefix n (String c h)) eqn:Hp.
    + split; [intros _; now apply prefix_occurs | reflexivity].
    + rewrite IH. split.
      * intros (a & b & ->). exists (String c a), b. reflexivity.
      * intros (a & b & Hab). destruct a as [|x a].
        -- assert (String.prefix n (String c h) = true)
             by (apply prefix_iff; now exists b).
           congruence.
        -- inversion Hab; subst. now exists a, b.
Qed.

Lemma str_in_false_iff (n h : string) : Py.str_in n h = false <-> ~ occurs n h.
Proof.
  rewrite <- str_in_iff. destruct (Py.str_in n h); split; congruence.
Qed.

Lemma extends_refl (a : string) : extends a a.
Proof. exists EmptyString. now rewrite append_nil_r. Qed.

Lemma extends_length (a b : string) :
  extends a b -> (String.length a <= String.length b)%nat.
Proof. intros [d ->]. rewrite length_append. lia. Qed.

Lemma extends_prefix (a b : string) : extends a b <-> String.prefix a b = true.
Proof. unfold extends. now rewrite prefix_iff. Qed.

(* --------------------------------------------------------------------- *)
(** ** The error monad *)
(* --------------------------------------------------------------------- *)

Lemma bind_inr {A B} (c : result A) (k : A -> result B) (b : B) :
  bind c k = inr b -> exists a, c = inr a /\ k a = inr b.
Proof. destruct c as [e|a]; simpl; [discriminate | eauto]. Qed.

Lemma bind_inl {A B} (c : result A) (k : A -> result B) (e : exn) :
  bind c k = inl e -> c = inl e \/ exists a, c = inr a /\ k a = inl e.
Proof. destruct c as [e'|a]; simpl; [left; congruence | eauto]. Qed.

(* --------------------------------------------------------------------- *)
(** ** Family dispatch *)
(* --------------------------------------------------------------------- *)

(** Case analysis on the three membership tests of a dispatch chain. *)
Ltac case_family id :=
  destruct (Py.str_in "anthropic.claude" id),
           (Py.str_in "meta.llama2" id),
           (Py.str_in "amazon.titan" id).

Lemma family_of_none (model_id : string) :
  family_of model_id = None <->
  Py.str_in "anthropic.claude" model_id = false
  /\ Py.str_in "meta.llama2" model_id = false
  /\ Py.str_in "amazon.titan" model_id = false.
Proof.
  unfold family_of.
  case_family model_id; intuition congruence.
Qed.

Lemma request_body_none (model_id prompt : string) (mt : Z) (t : F64.float64) :
  family_of model_id = None ->
  model_request_body model_id prompt mt t = None
  /\ streaming_request_body model_id prompt mt t = None.
Proof.
  intros H. apply family_of_none in H. destruct H as (H1 & H2 & H3).
  unfold model_request_body, streaming_request_body.
  now rewrite H1, H2, H3.
Qed.

(* --------------------------------------------------------------------- *)
(** ** Single-shot path *)
(* --------------------------------------------------------------------- *)

Lemma invoke_bedrock_model_caught c model_id prompt mt t e :
  invoke_bedrock_model_try c model_id prompt mt t = inl e ->
  invoke_bedrock_model c model_id prompt mt t = failure_with (exn_str e).
Proof. intros H. unfold invoke_bedrock_model. now rewrite H. Qed.

Lemma success_result_shape locals r :
  success_result locals = inr r -> success r = true /\ error r = None.
Proof.
  destruct locals as [[[t|] [i|]] [o|]]; simpl; try discriminate.
  intros H; inversion H; subst; simpl; auto.
Qed.

Lemma invoke_bedrock_model_returned c model_id prompt mt t r :
  invoke_bedrock_model_try c model_id prompt mt t = inr r ->
  invoke_bedrock_model c model_id prompt mt t = r
  /\ success r = true /\ error r = None.
Proof.
  intros H. unfold invoke_bedrock_model. rewrite H. split; [reflexivity|].
  unfold invoke_bedrock_model_try in H.
  apply bind_inr in H. destruct H as (payload & _ & H).
  apply bind_inr in H. destruct H as (resp & _ & H).
  apply bind_inr in H. destruct H as (locals & _ & H).
  now apply success_result_shape in H.
Qed.

(** C1. Whatever the model id, the prompt and the transport do: when the
    transport call raises, or when the response does not parse, the
    single-shot entry point does not raise but returns success=false, the text
    "Error: <cause>", zero token counts and the cause in the error field; and
    every call returns a well-formed result: a success without error field, or
    a failure of exactly that shape. *)
Theorem single_shot_faults_become_results
  (c : client) (model_id prompt : string) (max_tokens : Z) (temperature : F64.float64) :
  (forall payload e,
      model_request_body model_id prompt max_tokens temperature = Some payload ->
      invoke_model c model_id payload = inl e ->
      invoke_bedrock_model c model_id prompt max_tokens temperature
      = MkResult (PyStr ("Error: " ++ exn_str e)) (PyInt 0) (PyInt 0) false
                 (Some (exn_str e)))
  /\ (forall payload response_body e,
      model_request_body model_id prompt max_tokens temperature = Some payload ->
      invoke_model c model_id payload = inr response_body ->
      (locals <- parse_response model_id response_body ;; success_result locals)
      = inl e ->
      invoke_bedrock_model c model_id prompt max_tokens temperature
      = MkResult (PyStr ("Error: " ++ exn_str e)) (PyInt 0) (PyInt 0) false
                 (Some (exn_str e)))
  /\ (let r := invoke_bedrock_model c model_id prompt max_tokens temperature in
      (success r = true /\ error r = None)
      \/ exists cause,
          r = MkResult (PyStr ("Error: " ++ cause)) (PyInt 0) (PyInt 0) false
                       (Some cause)).
Proof.
  split; [|split].
  - intros payload e Hb Hc.
    apply (invoke_bedrock_model_caught c model_id prompt max_tokens temperature e).
    unfold invoke_bedrock_model_try. rewrite Hb. simpl. now rewrite Hc.
  - intros payload resp e Hb Hc Hp.
    apply (invoke_bedrock_model_caught c model_id prompt max_tokens temperature e).
    unfold invoke_bedrock_model_try. rewrite Hb. simpl. rewrite Hc. simpl.
    exact Hp.
  - simpl.
    destruct (invoke_bedrock_model_try c model_id prompt max_tokens temperature)
      as [e|r] eqn:Htry.
    + right. exists (exn_str e).
      now apply invoke_bedrock_model_caught.
    + left. apply invoke_bedrock_model_returned in Htry.
      destruct Htry as (-> & Hs & He). auto.
Qed.

Lemma single_shot_faults_become_results_witness :
  invoke_bedrock_model
    (const_client (inl connection_reset) (inr StreamEnd)) haiku_id "Hi" 50 F64.lit_0_5
  = MkResult (PyStr "Error: reset") (PyInt 0) (PyInt 0) false (Some "reset")
  /\ invoke_bedrock_model
       (const_client (inr (PyDict [])) (inr StreamEnd)) haiku_id "Hi" 50 F64.lit_0_5
     = MkResult (PyStr "Error: 'content'") (PyInt 0) (PyInt 0) false
                (Some "'content'").
Proof.
  split.
  - apply (proj1 (single_shot_faults_become_results
                    (const_client (inl connection_reset) (inr StreamEnd))
                    haiku_id "Hi" 50 F64.lit_0_5)
             hi_chat_payload connection_reset); reflexivity.
  - apply (proj1 (proj2 (single_shot_faults_become_results
                    (const_client (inr (PyDict [])) (inr StreamEnd))
                    haiku_id "Hi" 50 F64.lit_0_5))
             hi_chat_payload (PyDict []) (Py.KeyError "'content'")); reflexivity.
Defined.

(** C2, as stated, fails: for "foo.bar-v1" the fault inside the single-shot
    and the streaming [try] blocks is the interpreter's UnboundLocalError on
    the local [body], not an unsupported-model error, and neither entry point
    fails: one returns a failure dict, the other yields an error frame. *)
Lemma unsupported_id_fault_is_unbound_local :
  invoke_bedrock_model_try canned_client "foo.bar-v1" "Hi" 50 F64.lit_0_5
  = inl (Py.UnboundLocalError "body")
  /\ raised (invoke_bedrock_streaming_try canned_client "foo.bar-v1" "Hi" 50 F64.lit_0_5)
     = Some (Py.UnboundLocalError "body")
  /\ exn_class (Py.UnboundLocalError "body") = "UnboundLocalError"
  /\ exn_class (Py.UnboundLocalError "body") <> "UnsupportedModelError"
  /\ invoke_bedrock_model canned_client "foo.bar-v1" "Hi" 50 F64.lit_0_5
     = failure_with
         "cannot access local variable 'body' where it is not associated with a value"
  /\ invoke_bedrock_streaming canned_client "foo.bar-v1" "Hi" 50 F64.lit_0_5
     = GenRun
         ["Streaming Error: cannot access local variable 'body' where it is not associated with a value"]
         None.
Proof. repeat split; try reflexivity. discriminate. Qed.

(** C2, amended. For every model id that contains none of the three family
    names, no request body is built and the transport is not consulted: with
    one and the same cause for every client and every request, the single-shot
    entry point returns success=false, zero token counts and the text
    "Error: <cause>", and the streaming entry point yields the single frame
    "Streaming Error: <cause>" and ends; neither raises. *)
Theorem unsupported_id_reported_as_failure (model_id : string) :
  Py.str_in "anthropic.claude" model_id = false ->
  Py.str_in "meta.llama2" model_id = false ->
  Py.str_in "amazon.titan" model_id = false ->
  exists cause : string,
  forall (c : client) (prompt : string) (max_tokens : Z) (temperature : F64.float64),
    model_request_body model_id prompt max_tokens temperature = None
    /\ streaming_request_body model_id prompt max_tokens temperature = None
    /\ invoke_bedrock_model c model_id prompt max_tokens temperature
       = MkResult (PyStr ("Error: " ++ cause)) (PyInt 0) (PyInt 0) false (Some cause)
    /\ invoke_bedrock_streaming c model_id prompt max_tokens temperature
       = GenRun ["Streaming Error: " ++ cause] None.
Proof.
  intros H1 H2 H3.
  exists (exn_str (Py.UnboundLocalError "body")).
  intros c prompt mt t.
  assert (Hf : family_of model_id = None) by (apply family_of_none; auto).
  destruct (request_body_none model_id prompt mt t Hf) as [Hb Hs].
  repeat split; trivial.
  - unfold invoke_bedrock_model, invoke_bedrock_model_try. rewrite Hb. reflexivity.
  - unfold invoke_bedrock_streaming, invoke_bedrock_streaming_try. rewrite Hs.
    reflexivity.
Qed.

Lemma unsupported_id_reported_as_failure_witness :
  exists cause : string,
  forall (c : client) (prompt : string) (max_tokens : Z) (temperature : F64.float64),
    model_request_body "foo.bar-v1" prompt max_tokens temperature = None
    /\ streaming_request_body "foo.bar-v1" prompt max_tokens temperature = None
    /\ invoke_bedrock_model c "foo.bar-v1" prompt max_tokens temperature
       = MkResult (PyStr ("Error: " ++ cause)) (PyInt 0) (PyInt 0) false (Some cause)
    /\ invoke_bedrock_streaming c "foo.bar-v1" prompt max_tokens temperature
       = GenRun ["Streaming Error: " ++ cause] None.
Proof.
  apply (unsupported_id_reported_as_failure "foo.bar-v1"); reflexivity.
Defined.

(** C3, as stated, fails: the inference-profile id
    "us.anthropic.claude-3-haiku-20240307-v1:0" does not start with any family
    name, so a match at the start of the string finds no family; the encoder
    and the decoders of both entry points treat it as a Chat model. *)
Lemma profile_id_is_chat_without_prefix :
  String.prefix "anthropic.claude" haiku_profile_id = false
  /\ family_by_prefix haiku_profile_id = None
  /\ family_of haiku_profile_id = Some Chat
  /\ model_request_body haiku_profile_id "Hi" 50 F64.lit_0_5 = Some hi_chat_payload
  /\ streaming_request_body haiku_profile_id "Hi" 50 F64.lit_0_5 = Some hi_chat_payload
  /\ parse_response haiku_profile_id hello_response
     = inr (Some (PyStr "Hello!"), Some (PyInt 2), Some (PyInt 3))
  /\ append_chunk haiku_profile_id "Hel" (delta_chunk "lo") = inr "Hello".
Proof. repeat split; reflexivity. Qed.

(** C3, amended. For every model id, the family is found by testing whether
    the family name occurs anywhere in the id (Python's [in]), anthropic.claude
    first, then meta.llama2, then amazon.titan, the first match winning; an id
    in which none occurs is unsupported, and exactly then no request body is
    assigned.  The encoder and the decoder of both entry points depend on the
    id through this classification only, and an id that starts with
    anthropic.claude is a Chat id. *)
Theorem dispatch_by_substring (model_id : string) :
  (family_of model_id = Some Chat <-> occurs "anthropic.claude" model_id)
  /\ (family_of model_id = Some InstructionTag <->
      ~ occurs "anthropic.claude" model_id /\ occurs "meta.llama2" model_id)
  /\ (family_of model_id = Some FieldNamed <->
      ~ occurs "anthropic.claude" model_id /\ ~ occurs "meta.llama2" model_id
      /\ occurs "amazon.titan" model_id)
  /\ (family_of model_id = None <->
      ~ occurs "anthropic.claude" model_id /\ ~ occurs "meta.llama2" model_id
      /\ ~ occurs "amazon.titan" model_id)
  /\ (forall prompt max_tokens temperature,
        (model_request_body model_id prompt max_tokens temperature = None
         <-> family_of model_id = None)
        /\ (streaming_request_body model_id prompt max_tokens temperature = None
            <-> family_of model_id = None))
  /\ (forall other : string,
        family_of other = family_of model_id ->
        (forall prompt max_tokens temperature,
            model_request_body other prompt max_tokens temperature
            = model_request_body model_id prompt max_tokens temperature
            /\ streaming_request_body other prompt max_tokens temperature
               = streaming_request_body model_id prompt max_tokens temperature)
        /\ (forall response_body,
               parse_response other response_body
               = parse_response model_id response_body)
        /\ (forall full_text chunk,
               append_chunk other full_text chunk
               = append_chunk model_id full_text chunk))
  /\ (String.prefix "anthropic.claude" model_id = true ->
      family_of model_id = Some Chat).
Proof.
  assert (Hchat := str_in_iff "anthropic.claude" model_id).
  assert (Hllama := str_in_iff "meta.llama2" model_id).
  assert (Htitan := str_in_iff "amazon.titan" model_id).
  repeat match goal with |- _ /\ _ => split end.
  - unfold family_of.
    case_family model_id; intuition congruence.
  - unfold family_of.
    case_family model_id; intuition congruence.
  - unfold family_of.
    case_family model_id; intuition congruence.
  - unfold family_of.
    case_family model_id; intuition congruence.
  - intros prompt mt t.
    unfold family_of, model_request_body, streaming_request_body.
    case_family model_id; repeat split; intros; congruence.
  - intros other Heq.
    unfold family_of in Heq.
    unfold model_request_body, streaming_request_body, parse_response, append_chunk.
    case_family model_id; case_family other;
      try discriminate; repeat split; reflexivity.
  - intros Hp. apply prefix_occurs in Hp. apply Hchat in Hp.
    unfold family_of. now rewrite Hp.
Qed.

Lemma dispatch_by_substring_witness :
  family_of haiku_profile_id = Some Chat
  /\ family_of haiku_id = Some Chat
  /\ append_chunk haiku_profile_id "Hel" (delta_chunk "lo")
     = append_chunk haiku_id "Hel" (delta_chunk "lo").
Proof.
  pose proof (dispatch_by_substring haiku_profile_id)
    as (Hchat & _ & _ & _ & _ & _ & _).
  pose proof (dispatch_by_substring haiku_id)
    as (_ & _ & _ & _ & _ & Hsame & Hprefix).
  split; [|split].
  - apply Hchat.
    exists "us.", "-3-haiku-20240307-v1:0". reflexivity.
  - apply Hprefix. reflexivity.
  - apply (Hsame haiku_profile_id). reflexivity.
Defined.

(* --------------------------------------------------------------------- *)
(** ** Request bodies *)
(* --------------------------------------------------------------------- *)

(** C8. For every prompt, max_tokens and temperature, an InstructionTag model
    gets, from both entry points, a body with exactly the keys prompt,
    max_gen_len, temperature and top_p: the prompt is wrapped as begin tag,
    instruction-open tag, space, verbatim prompt, space, instruction-close
    tag; the generation length sits under max_gen_len and there is no
    max_tokens key; the temperature is the given one; top_p is the double 0.9
    whatever the input. *)
Theorem instruction_tag_payload
  (model_id prompt : string) (max_tokens : Z) (temperature : F64.float64) :
  family_of model_id = Some InstructionTag ->
  exists kvs : list (string * pyval),
    model_request_body model_id prompt max_tokens temperature = Some (PyDict kvs)
    /\ streaming_request_body model_id prompt max_tokens temperature
       = Some (PyDict kvs)
    /\ map fst kvs = ["prompt"; "max_gen_len"; "temperature"; "top_p"]
    /\ Py.dict_get "prompt" kvs
       = Some (PyStr ("<s>" ++ "[INST]" ++ " " ++ prompt ++ " " ++ "[/INST]"))
    /\ Py.dict_get "max_gen_len" kvs = Some (PyInt max_tokens)
    /\ Py.dict_get "max_tokens" kvs = None
    /\ Py.dict_get "temperature" kvs = Some (PyFloat temperature)
    /\ Py.dict_get "top_p" kvs = Some (PyFloat (Prim2SF 0.9%float)).
Proof.
  intros Hf. unfold family_of in Hf.
  unfold model_request_body, streaming_request_body.
  destruct (Py.str_in "anthropic.claude" model_id); [discriminate|].
  destruct (Py.str_in "meta.llama2" model_id).
  - eexists. repeat split; reflexivity.
  - destruct (Py.str_in "amazon.titan" model_id); discriminate.
Qed.

Lemma instruction_tag_payload_witness :
  exists kvs : list (string * pyval),
    model_request_body llama_id "Hi" 50 F64.lit_0_5 = Some (PyDict kvs)
    /\ streaming_request_body llama_id "Hi" 50 F64.lit_0_5 = Some (PyDict kvs)
    /\ map fst kvs = ["prompt"; "max_gen_len"; "temperature"; "top_p"]
    /\ Py.dict_get "prompt" kvs = Some (PyStr "<s>[INST] Hi [/INST]")
    /\ Py.dict_get "max_gen_len" kvs = Some (PyInt 50)
    /\ Py.dict_get "max_tokens" kvs = None
    /\ Py.dict_get "temperature" kvs = Some (PyFloat F64.lit_0_5)
    /\ Py.dict_get "top_p" kvs = Some (PyFloat (Prim2SF 0.9%float)).
Proof.
  apply (instruction_tag_payload llama_id "Hi" 50 F64.lit_0_5). reflexivity.
Defined.

Lemma chat_and_instruction_bodies_agree
  (model_id prompt : string) (max_tokens : Z) (temperature : F64.float64) :
  family_of model_id <> Some FieldNamed ->
  streaming_request_body model_id prompt max_tokens temperature
  = model_request_body model_id prompt max_tokens temperature.
Proof.
  unfold family_of, model_request_body, streaming_request_body.
  destruct (Py.str_in "anthropic.claude" model_id); [reflexivity|].
  destruct (Py.str_in "meta.llama2" model_id); [reflexivity|].
  destruct (Py.str_in "amazon.titan" model_id); [congruence | reflexivity].
Qed.

(** C9 at the Titan model: for the same prompt, max_tokens and temperature
    the two entry points build different bodies.  Both carry the prompt under
    inputText and topP fixed at 1; the single-shot body carries an empty
    stopSequences list, and the streaming body has no stopSequences key. *)
Theorem titan_streaming_body_lacks_stop_sequences :
  model_request_body titan_id "Hi" 50 F64.lit_0_5
  = Some (PyDict
      [ ("inputText", PyStr "Hi");
        ("textGenerationConfig",
         PyDict [ ("maxTokenCount", PyInt 50);
                  ("temperature", PyFloat F64.lit_0_5);
                  ("topP", PyInt 1);
                  ("stopSequences", PyList []) ]) ])
  /\ streaming_request_body titan_id "Hi" 50 F64.lit_0_5
     = Some (PyDict
         [ ("inputText", PyStr "Hi");
           ("textGenerationConfig",
            PyDict [ ("maxTokenCount", PyInt 50);
                     ("temperature", PyFloat F64.lit_0_5);
                     ("topP", PyInt 1) ]) ])
  /\ model_request_body titan_id "Hi" 50 F64.lit_0_5
     <> streaming_request_body titan_id "Hi" 50 F64.lit_0_5
  /\ (body <- Py.read_local "body" (model_request_body titan_id "Hi" 50 F64.lit_0_5) ;;
      config <- Py.getitem body "textGenerationConfig" ;;
      Py.getitem config "stopSequences") = inr (PyList [])
  /\ (body <- Py.read_local "body" (streaming_request_body titan_id "Hi" 50 F64.lit_0_5) ;;
      config <- Py.getitem body "textGenerationConfig" ;;
      Py.getitem config "stopSequences") = inl (Py.KeyError "'stopSequences'").
Proof. repeat split; try reflexivity. discriminate. Qed.

(* --------------------------------------------------------------------- *)
(** ** Streaming path *)
(* --------------------------------------------------------------------- *)

Lemma adjacent_impl {A} (R R' : A -> A -> Prop) (l : list A) :
  (forall a b, R a b -> R' a b) -> adjacent R l -> adjacent R' l.
Proof.
  intros HR. induction l as [|a l IH]; [trivial|].
  destruct l as [|b l]; [trivial|].
  intros [Hab Hrest]. split; [now apply HR | now apply IH].
Qed.

Lemma adjacent_tail {A} (R : A -> A -> Prop) (a : A) (l : list A) :
  adjacent R (a :: l) -> adjacent R l.
Proof. destruct l as [|b l]; [trivial | now intros [_ H]]. Qed.

Lemma str_iadd_extends (acc : string) (v : pyval) (acc' : string) :
  Py.str_iadd acc v = inr acc' -> extends acc acc'.
Proof.
  destruct v; simpl; try discriminate.
  intros H; inversion H. now exists s.
Qed.

Lemma append_chunk_extends (model_id full_text : string) (chunk : pyval)
      (full_text' : string) :
  append_chunk model_id full_text chunk = inr full_text' ->
  extends full_text full_text'.
Proof.
  unfold append_chunk.
  destruct (Py.str_in "anthropic.claude" model_id).
  - intros H. apply bind_inr in H. destruct H as (ty & _ & H).
    destruct (Py.eq_str ty "content_block_delta").
    + apply bind_inr in H. destruct H as (delta & _ & H).
      apply bind_inr in H. destruct H as (t & _ & H).
      now apply str_iadd_extends in H.
    + inversion H. apply extends_refl.
  - destruct (Py.str_in "meta.llama2" model_id).
    + intros H. apply bind_inr in H. destruct H as (t & _ & H).
      now apply str_iadd_extends in H.
    + destruct (Py.str_in "amazon.titan" model_id).
      * intros H. apply bind_inr in H. destruct H as (t & _ & H).
        now apply str_iadd_extends in H.
      * intros H. inversion H. apply extends_refl.
Qed.

(** Every frame of the loop is the accumulator, and the accumulator only
    grows at its end. *)
Lemma stream_loop_chain (model_id : string) (s : event_stream) :
  forall full_text,
    adjacent extends (full_text :: yielded (stream_loop model_id full_text s)).
Proof.
  induction s as [| e | ev rest IH]; intros full_text; simpl; trivial.
  destruct (chunk <- ev;; append_chunk model_id full_text chunk)
    as [e|full_text'] eqn:Hstep; simpl; trivial.
  split; [|apply IH].
  apply bind_inr in Hstep. destruct Hstep as (chunk & _ & Hstep).
  now apply append_chunk_extends in Hstep.
Qed.

Lemma try_frames_chain c model_id prompt mt t :
  adjacent extends
    (EmptyString :: yielded (invoke_bedrock_streaming_try c model_id prompt mt t)).
Proof.
  unfold invoke_bedrock_streaming_try.
  destruct (payload <- Py.read_local "body"
                         (streaming_request_body model_id prompt mt t);;
            invoke_model_with_response_stream c model_id payload) as [e|s].
  - simpl. trivial.
  - apply stream_loop_chain.
Qed.

Lemma stream_loop_interrupted (model_id : string) (e : exn)
      (evs : list (result pyval)) :
  forall full_text frames,
    stream_loop model_id full_text (events_then evs StreamEnd) = GenRun frames None ->
    stream_loop model_id full_text (events_then evs (StreamRaise e))
    = GenRun frames (Some e)
    /\ List.length frames = List.length evs.
Proof.
  induction evs as [|ev rest IH]; intros full_text frames; simpl.
  - intros H; inversion H. split; reflexivity.
  - destruct (chunk <- ev;; append_chunk model_id full_text chunk)
      as [e'|full_text']; [discriminate|].
    destruct (stream_loop model_id full_text' (events_then rest StreamEnd))
      as [ys rs] eqn:Hrest.
    simpl. intros H; inversion H; subst.
    destruct (IH full_text' ys Hrest) as [-> Hlen].
    simpl. split; [reflexivity | now rewrite Hlen].
Qed.

(** C4, as stated, fails: a Chat stream that delivers one delta of 32
    characters and then breaks yields that text and then the 22-character
    frame "Streaming Error: reset", which is shorter and does not extend it. *)
Lemma error_frame_breaks_growth :
  yielded (invoke_bedrock_streaming
             (const_client (inr hello_response) (inr long_then_broken))
             haiku_id "Hi" 50 F64.lit_0_5)
  = [ "Hello, world! How are you today?"; "Streaming Error: reset" ]
  /\ (String.length "Streaming Error: reset"
      < String.length "Hello, world! How are you today?")%nat
  /\ String.prefix "Hello, world! How are you today?" "Streaming Error: reset"
     = false.
Proof. repeat split. simpl. lia. Qed.

(** C4, amended. For every model id and every stream, the frames yielded from
    decoded chunks, that is all frames except the "Streaming Error" frame the
    handler may add at the end, come in nondecreasing length and each one
    extends its predecessor; the output is these frames, followed by one error
    frame exactly when the iteration was cut short by a fault. *)
Theorem decoded_frames_grow
  (c : client) (model_id prompt : string) (max_tokens : Z) (temperature : F64.float64) :
  let decoded :=
    yielded (invoke_bedrock_streaming_try c model_id prompt max_tokens temperature) in
  let fault :=
    raised (invoke_bedrock_streaming_try c model_id prompt max_tokens temperature) in
  let out :=
    yielded (invoke_bedrock_streaming c model_id prompt max_tokens temperature) in
  adjacent (fun a b => (String.length a <= String.length b)%nat
                       /\ String.prefix a b = true) decoded
  /\ (fault = None -> out = decoded)
  /\ (forall e, fault = Some e -> out = (decoded ++ [error_frame e])%list).
Proof.
  cbv zeta. split; [|split].
  - apply (adjacent_tail _ EmptyString).
    apply adjacent_impl with (R := extends); [|apply try_frames_chain].
    intros a b Hab. split; [now apply extends_length | now apply extends_prefix].
  - intros H. unfold invoke_bedrock_streaming. now rewrite H.
  - intros e H. unfold invoke_bedrock_streaming. now rewrite H.
Qed.

Lemma decoded_frames_grow_witness :
  yielded (invoke_bedrock_streaming
             (const_client (inr hello_response) (inr broken_stream))
             haiku_id "Hi" 50 F64.lit_0_5)
  = ([ "Hello"; "Hello, world" ] ++ [ "Streaming Error: reset" ])%list
  /\ yielded (invoke_bedrock_streaming canned_client haiku_id "Hi" 50 F64.lit_0_5)
     = [].
Proof.
  split.
  - apply (proj2 (proj2 (decoded_frames_grow
                    (const_client (inr hello_response) (inr broken_stream))
                    haiku_id "Hi" 50 F64.lit_0_5)) connection_reset).
    reflexivity.
  - apply (proj1 (proj2 (decoded_frames_grow canned_client
                           haiku_id "Hi" 50 F64.lit_0_5))).
    reflexivity.
Defined.

(** C5. For every model id and every sequence of chunks: when the transport
    stream raises after the chunks so far were decoded and their frames
    yielded, the generator yields those frames, one per chunk and unchanged,
    then exactly one more frame "Streaming Error: <cause>", and ends without
    raising. *)
Theorem stream_fault_adds_one_error_frame
  (c : client) (model_id prompt : string) (max_tokens : Z) (temperature : F64.float64)
  (payload : pyval) (chunks : list pyval) (e : exn) (frames : list string) :
  streaming_request_body model_id prompt max_tokens temperature = Some payload ->
  invoke_model_with_response_stream c model_id payload
  = inr (events_then (map inr chunks) (StreamRaise e)) ->
  stream_loop model_id EmptyString (events_then (map inr chunks) StreamEnd)
  = GenRun frames None ->
  invoke_bedrock_streaming c model_id prompt max_tokens temperature
  = GenRun (frames ++ [("Streaming Error: " ++ exn_str e)%string])%list None
  /\ List.length frames = List.length chunks.
Proof.
  intros Hbody Hcall Hdecoded.
  destruct (stream_loop_interrupted model_id e (map inr chunks)
              EmptyString frames Hdecoded) as [Hcut Hlen].
  rewrite length_map in Hlen. split; [|exact Hlen].
  unfold invoke_bedrock_streaming, invoke_bedrock_streaming_try.
  rewrite Hbody. simpl. rewrite Hcall, Hcut. reflexivity.
Qed.

Lemma stream_fault_adds_one_error_frame_witness :
  invoke_bedrock_streaming
    (const_client (inr hello_response) (inr broken_stream))
    haiku_id "Hi" 50 F64.lit_0_5
  = GenRun ([ "Hello"; "Hello, world" ] ++ [ "Streaming Error: reset" ])%list None
  /\ List.length [ "Hello"; "Hello, world" ]
     = List.length [ delta_chunk "Hello"; delta_chunk ", world" ].
Proof.
  apply (stream_fault_adds_one_error_frame
           (const_client (inr hello_response) (inr broken_stream))
           haiku_id "Hi" 50 F64.lit_0_5 hi_chat_payload
           [ delta_chunk "Hello"; delta_chunk ", world" ] connection_reset
           [ "Hello"; "Hello, world" ]); reflexivity.
Defined.

(** C10. For every model id, recognised or not, and every stream, with
    well-formed or malformed chunks, draining the generator never raises: it
    yields frames that are successive values of the accumulator, starting
    from the empty text, and, when anything inside raised, one final frame
    "Streaming Error: <cause>" after which it stops. *)
Theorem streaming_never_raises
  (c : client) (model_id prompt : string) (max_tokens : Z) (temperature : F64.float64) :
  raised (invoke_bedrock_streaming c model_id prompt max_tokens temperature) = None
  /\ exists accumulated : list string,
       adjacent extends (EmptyString :: accumulated)
       /\ accumulated
          = yielded (invoke_bedrock_streaming_try c model_id prompt max_tokens temperature)
       /\ yielded (invoke_bedrock_streaming c model_id prompt max_tokens temperature)
          = (accumulated ++
             match raised (invoke_bedrock_streaming_try
                             c model_id prompt max_tokens temperature) with
             | None => []
             | Some e => [("Streaming Error: " ++ exn_str e)%string]
             end)%list.
Proof.
  unfold invoke_bedrock_streaming.
  pose proof (try_frames_chain c model_id prompt max_tokens temperature) as Hchain.
  destruct (invoke_bedrock_streaming_try c model_id prompt max_tokens temperature)
    as [frames [e|]]; simpl in *.
  - split; [reflexivity|]. exists frames. auto.
  - split; [reflexivity|]. exists frames. rewrite app_nil_r. auto.
Qed.

(* --------------------------------------------------------------------- *)
(** ** Rounding stays in range *)
(* --------------------------------------------------------------------- *)

Lemma digits2_pos_bound (p : positive) :
  forall k, Zpos p < 2 ^ k -> Zpos (digits2_pos p) <= k.
Proof.
  induction p as [p IH | p IH |]; intros k Hk.
  - assert (1 <= k) by (destruct (Z_lt_le_dec k 1) as [Hlt|]; [|lia];
      assert (2 ^ k <= 1) by (destruct (Z.eq_dec k 0) as [->|]; [simpl; lia|];
        rewrite Z.pow_neg_r by lia; lia); lia).
    replace k with (Z.succ (k - 1)) in Hk by lia.
    rewrite Z.pow_succ_r in Hk by lia.
    specialize (IH (k - 1)). simpl digits2_pos. rewrite Pos2Z.inj_succ.
    assert (Zpos p < 2 ^ (k - 1)) by lia. lia.
  - assert (1 <= k) by (destruct (Z_lt_le_dec k 1) as [Hlt|]; [|lia];
      assert (2 ^ k <= 1) by (destruct (Z.eq_dec k 0) as [->|]; [simpl; lia|];
        rewrite Z.pow_neg_r by lia; lia); lia).
    replace k with (Z.succ (k - 1)) in Hk by lia.
    rewrite Z.pow_succ_r in Hk by lia.
    specialize (IH (k - 1)). simpl digits2_pos. rewrite Pos2Z.inj_succ.
    assert (Zpos p < 2 ^ (k - 1)) by lia. lia.
  - simpl. destruct (Z_lt_le_dec k 1) as [Hlt|]; [|lia].
    assert (2 ^ k <= 1) by (destruct (Z.eq_dec k 0) as [->|]; [simpl; lia|];
        rewrite Z.pow_neg_r by lia; lia). lia.
Qed.

Lemma Zdigits2_bound (m k : Z) : 0 <= m < 2 ^ k -> 0 <= k -> 0 <= Zdigits2 m <= k.
Proof.
  intros [Hm Hk] Hk0. destruct m as [|p|p]; simpl; try lia.
  split; [lia | now apply digits2_pos_bound].
Qed.

Lemma iter_pos_invariant {A} (P : A -> Prop) (f : A -> A) :
  (forall x, P x -> P (f x)) -> forall n x, P x -> P (iter_pos f n x).
Proof.
  intros Hf. induction n as [n IH | n IH |]; intros x Hx; simpl; auto.
Qed.

Lemma shr_1_bounds (M : Z) (mrs : shr_record) :
  0 <= shr_m mrs <= M -> 0 <= shr_m (shr_1 mrs) <= M.
Proof.
  destruct mrs as [m r s]. simpl.
  destruct m as [|[p|p|]|[p|p|]]; simpl; lia.
Qed.

Lemma shr_fexp_bounds (m e : Z) (l : location) (k : Z) mrs e' :
  0 <= m < 2 ^ k -> 0 <= k ->
  shr_fexp 53 1024 m e l = (mrs, e') ->
  0 <= shr_m mrs <= m /\ e' <= Z.max e (Z.max (k + e - 53) (-1074)).
Proof.
  intros Hm Hk. unfold shr_fexp, shr.
  pose proof (Zdigits2_bound m k Hm Hk) as Hd.
  assert (Hrec : 0 <= shr_m (shr_record_of_loc m l) <= m)
    by (destruct l as [|[]]; simpl; lia).
  assert (Hf : fexp 53 1024 (Zdigits2 m + e) <= Z.max (k + e - 53) (-1074))
    by (unfold fexp, emin; lia).
  destruct (fexp 53 1024 (Zdigits2 m + e) - e) as [|p|p] eqn:Hn;
    intros H; inversion H; subst; clear H.
  - split; [exact Hrec | lia].
  - split; [|lia].
    apply (iter_pos_invariant (fun x => 0 <= shr_m x <= m)); [|exact Hrec].
    intros x. apply shr_1_bounds.
  - split; [exact Hrec | lia].
Qed.

Lemma round_nearest_even_bounds (m : Z) (l : location) :
  0 <= m -> m <= round_nearest_even m l <= m + 1.
Proof.
  intros Hm. destruct l as [|[]]; simpl; try lia.
  destruct (Z.even m); lia.
Qed.

Lemma binary_round_aux_in_range (s : bool) (m e : Z) (l : location) (k : Z) :
  0 <= m < 2 ^ k -> 0 <= k -> e <= 0 -> 2 * k <= 971 ->
  match binary_round_aux 53 1024 s m e l with
  | S754_zero s' | S754_finite s' _ _ => s' = s
  | _ => False
  end.
Proof.
  intros Hm Hk He Hk2. unfold binary_round_aux.
  destruct (shr_fexp 53 1024 m e l) as [mrs1 e1] eqn:H1.
  apply (shr_fexp_bounds _ _ _ k) in H1; trivial.
  destruct H1 as [Hm1 He1].
  pose proof (round_nearest_even_bounds (shr_m mrs1) (loc_of_shr_record mrs1)
                (proj1 Hm1)) as Hr.
  set (m1 := round_nearest_even (shr_m mrs1) (loc_of_shr_record mrs1)) in *.
  destruct (shr_fexp 53 1024 m1 e1 loc_Exact) as [mrs2 e2] eqn:H2.
  assert (Hpow : 2 ^ (k + 1) = 2 * 2 ^ k)
    by (rewrite Z.pow_add_r by lia; change (2 ^ 1) with 2; lia).
  apply (shr_fexp_bounds _ _ _ (k + 1)) in H2; [|lia|lia].
  destruct H2 as [Hm2 He2].
  destruct (shr_m mrs2) as [|p|p]; [reflexivity| |lia].
  replace (e2 <=? 1024 - 53) with true; [reflexivity|].
  symmetry. apply Z.leb_le. lia.
Qed.

Lemma div_core_bounds (p : positive) (mz ez : Z) (lz : location) :
  Zpos p < 2 ^ 256 ->
  SFdiv_core_binary 53 1024 (Zpos p) 0 1000 0 = (mz, ez, lz) ->
  0 <= mz < 2 ^ 319 /\ ez <= 0.
Proof.
  intros Hp. unfold SFdiv_core_binary.
  pose proof (Zdigits2_bound (Zpos p) 256 (conj (Pos2Z.is_nonneg p) Hp)) as Hd.
  change (Zdigits2 1000) with 10.
  set (d1 := Zdigits2 (Zpos p)) in *.
  set (e' := Z.min (fexp 53 1024 (d1 + 0 - (10 + 0))) (0 - 0)).
  assert (He' : -63 <= e' <= 0) by (unfold e', fexp, emin; lia).
  set (m' := match 0 - 0 - e' with
             | 0 => Zpos p
             | Zpos _ => Z.shiftl (Zpos p) (0 - 0 - e')
             | Zneg _ => 0
             end).
  assert (Hm' : 0 <= m' < 2 ^ 319).
  { unfold m'. destruct (0 - 0 - e') as [|s|s] eqn:Hs.
    - split; [lia|]. apply Z.lt_trans with (2 ^ 256); [exact Hp|].
      apply Z.pow_lt_mono_r; lia.
    - rewrite Z.shiftl_mul_pow2 by lia.
      assert (0 < 2 ^ Zpos s) by (apply Z.pow_pos_nonneg; lia).
      assert (2 ^ Zpos s <= 2 ^ 63) by (apply Z.pow_le_mono_r; lia).
      replace (2 ^ 319) with (2 ^ 256 * 2 ^ 63)
        by (rewrite <- Z.pow_add_r by lia; reflexivity).
      split; [apply Z.mul_nonneg_nonneg; lia|].
      apply Z.le_lt_trans with (Zpos p * 2 ^ 63).
      + apply Z.mul_le_mono_nonneg_l; lia.
      + apply Z.mul_lt_mono_pos_r; [reflexivity | exact Hp].
    - split; [lia|]. apply Z.pow_pos_nonneg; lia. }
  pose proof (Z_div_mod m' 1000 eq_refl) as Hdiv.
  destruct (Z.div_eucl m' 1000) as [q r].
  intros H; inversion H; subst; clear H.
  split; [|lia]. lia.
Qed.

(** On the range of token counts, [n / 1000] does not raise and is [+0.0] or
    a positive finite double. *)
Lemma int_true_div_in_range (n : Z) :
  0 <= n < 2 ^ 256 ->
  exists x, int_true_div n 1000 = inr x
            /\ F64.is_finite x = true /\ F64.is_nonneg x = true.
Proof.
  intros [Hn0 Hn]. unfold int_true_div. change (1000 =? 0) with false. cbv iota.
  destruct n as [|p|p]; [| |lia].
  - eexists. split; [reflexivity|]. split; reflexivity.
  - unfold F64.div, F64.of_int_raw, SFdiv, F64.prec, F64.emax.
    destruct (SFdiv_core_binary 53 1024 (Zpos p) 0 1000 0) as [[mz ez] lz] eqn:Hcore.
    apply div_core_bounds in Hcore; [|exact Hn]. destruct Hcore as [Hmz Hez].
    pose proof (binary_round_aux_in_range (xorb false false) mz ez lz 319
                  Hmz ltac:(lia) Hez ltac:(lia)) as Hr.
    destruct (binary_round_aux 53 1024 (xorb false false) mz ez lz)
      as [s| s | | s m e]; try contradiction; subst s;
      (eexists; split; [reflexivity|]; split; reflexivity).
Qed.

(* --------------------------------------------------------------------- *)
(** ** Cost *)
(* --------------------------------------------------------------------- *)

Lemma binary_round_aux_sign (s : bool) (m e : Z) (l : location) :
  match binary_round_aux 53 1024 s m e l with
  | S754_zero s' | S754_finite s' _ _ | S754_infinity s' => s' = s
  | S754_nan => True
  end.
Proof.
  unfold binary_round_aux.
  destruct (shr_fexp 53 1024 m e l) as [mrs1 e1].
  destruct (shr_fexp 53 1024 _ e1 loc_Exact) as [mrs2 e2].
  destruct (shr_m mrs2); trivial.
  destruct (e2 <=? 1024 - 53); reflexivity.
Qed.

(** A product of two non-negative finite doubles has its sign bit clear,
    unless it is NaN. *)
Lemma mul_nonneg (x p : F64.float64) :
  F64.is_finite x = true -> F64.is_nonneg x = true ->
  F64.is_finite p = true -> F64.is_nonneg p = true ->
  match F64.mul x p with
  | S754_zero s | S754_finite s _ _ | S754_infinity s => s = false
  | S754_nan => True
  end.
Proof.
  destruct x as [sx|sx| |sx mx ex], p as [sp|sp| |sp mp ep];
    simpl; try discriminate;
    destruct sx, sp; simpl; try discriminate; intros _ _ _ _; trivial.
  apply (binary_round_aux_sign false).
Qed.

Lemma mul_zero_l (p : F64.float64) :
  F64.is_finite p = true ->
  exists s, F64.mul (S754_zero false) p = S754_zero s
            /\ (F64.is_nonneg p = true -> s = false).
Proof.
  destruct p as [sp|sp| |sp mp ep]; simpl; try discriminate; intros _;
    exists sp; (split; [reflexivity | now destruct sp]).
Qed.

Lemma add_zero_r (a : F64.float64) :
  match a with
  | S754_zero s | S754_finite s _ _ | S754_infinity s => s = false
  | S754_nan => True
  end ->
  F64.add a (S754_zero false) = a.
Proof. destruct a as [s|s| |s m e]; simpl; intros H; subst; reflexivity. Qed.

Lemma add_zero_l (b : F64.float64) :
  match b with
  | S754_zero s | S754_finite s _ _ | S754_infinity s => s = false
  | S754_nan => True
  end ->
  F64.add (S754_zero false) b = b.
Proof. destruct b as [s|s| |s m e]; simpl; intros H; subst; reflexivity. Qed.

Lemma int_true_div_zero : int_true_div 0 1000 = inr (S754_zero false).
Proof. reflexivity. Qed.

(** Beyond the range of doubles the division itself raises: [10**400 / 1000]
    is an OverflowError. *)
Lemma cost_overflows_beyond_double_range :
  calculate_cost (10 ^ 400) 0 sonnet_config = inl OverflowError.
Proof. vm_compute. reflexivity. Qed.

(** With an infinite price the cost of no tokens is [0.0 * inf], a NaN. *)
Lemma cost_of_nothing_at_infinite_price :
  calculate_cost 0 0 unbounded_price_config = inr S754_nan.
Proof. reflexivity. Qed.

(** C6, as stated, fails: with the prices of Claude 3 Sonnet the cost of 10
    input tokens is the double 8854437155380585 * 2^-68 (printed 3e-05),
    while the costs of 1 and of 9 input tokens add up to
    8854437155380584 * 2^-68 (printed 2.9999999999999997e-05); [==] tells
    them apart, so the cost is not additive in the input token count. *)
Lemma cost_is_not_additive :
  (whole <- calculate_cost 10 0 sonnet_config ;;
   one <- calculate_cost 1 0 sonnet_config ;;
   nine <- calculate_cost 9 0 sonnet_config ;;
   ret (whole, F64.add one nine, F64.eqb whole (F64.add one nine)))
  = inr (S754_finite false 8854437155380585 (-68),
         S754_finite false 8854437155380584 (-68),
         false).
Proof. vm_compute. reflexivity. Qed.

(** C6, amended. For token counts from 0 up to 2^256 and any pricing,
    calculate_cost does not raise and returns
    (input_tokens/1000)*input_price_per_1k + (output_tokens/1000)*output_price_per_1k
    evaluated in binary64 arithmetic, every operation rounded to nearest;
    cost(1000, 1000, {in:0.003, out:0.015}) is the double 0.018; cost(0, 0, p)
    is zero for every pricing p with finite prices; and for finite
    non-negative prices the cost is the floating-point sum of the cost of the
    input tokens alone and the cost of the output tokens alone.  Because of
    the rounding it is not linear in a token count. *)
Theorem calculate_cost_rounded_formula
  (input_tokens output_tokens : Z) (config : model_config) :
  0 <= input_tokens < 2 ^ 256 ->
  0 <= output_tokens < 2 ^ 256 ->
  (calculate_cost input_tokens output_tokens config
   = inr (cost_formula
            (F64.div (F64.of_int_raw input_tokens) (F64.of_int_raw 1000))
            (F64.div (F64.of_int_raw output_tokens) (F64.of_int_raw 1000))
            (input_price_per_1k config) (output_price_per_1k config)))
  /\ (exists sonnet,
        models_get "Claude 3 Sonnet" MODELS = Some sonnet
        /\ calculate_cost 1000 1000 sonnet = inr (Prim2SF 0.018%float))
  /\ (F64.is_finite (input_price_per_1k config) = true ->
      F64.is_finite (output_price_per_1k config) = true ->
      exists zero, calculate_cost 0 0 config = inr zero
                   /\ F64.eqb zero (S754_zero false) = true)
  /\ (F64.is_finite (input_price_per_1k config) = true ->
      F64.is_nonneg (input_price_per_1k config) = true ->
      F64.is_finite (output_price_per_1k config) = true ->
      F64.is_nonneg (output_price_per_1k config) = true ->
      exists input_only output_only,
        calculate_cost input_tokens 0 config = inr input_only
        /\ calculate_cost 0 output_tokens config = inr output_only
        /\ calculate_cost input_tokens output_tokens config
           = inr (F64.add input_only output_only)).
Proof.
  intros Hi Ho.
  destruct (int_true_div_in_range input_tokens Hi) as (x & Hx & Hxf & Hxn).
  destruct (int_true_div_in_range output_tokens Ho) as (y & Hy & Hyf & Hyn).
  assert (Hxv : x = F64.div (F64.of_int_raw input_tokens) (F64.of_int_raw 1000)).
  { unfold int_true_div in Hx. change (1000 =? 0) with false in Hx. cbv iota in Hx.
    destruct (F64.div (F64.of_int_raw input_tokens) (F64.of_int_raw 1000));
      inversion Hx; reflexivity. }
  assert (Hyv : y = F64.div (F64.of_int_raw output_tokens) (F64.of_int_raw 1000)).
  { unfold int_true_div in Hy. change (1000 =? 0) with false in Hy. cbv iota in Hy.
    destruct (F64.div (F64.of_int_raw output_tokens) (F64.of_int_raw 1000));
      inversion Hy; reflexivity. }
  destruct config as [mid pin pout mt descr]. cbn [input_price_per_1k output_price_per_1k].
  unfold calculate_cost. cbn [input_price_per_1k output_price_per_1k].
  rewrite Hx, Hy, int_true_div_zero. cbn [bind ret].
  rewrite <- Hxv, <- Hyv. clear Hxv Hyv Hx Hy.
  split; [reflexivity|]. split; [|split].
  - eexists. split; [reflexivity|]. vm_compute. reflexivity.
  - intros Hpin Hpout.
    destruct (mul_zero_l pin Hpin) as (s1 & -> & _).
    destruct (mul_zero_l pout Hpout) as (s2 & -> & _).
    eexists. split; [reflexivity|]. now destruct s1, s2.
  - intros Hpin Hpin0 Hpout Hpout0.
    destruct (mul_zero_l pin Hpin) as (s1 & -> & Hs1).
    destruct (mul_zero_l pout Hpout) as (s2 & -> & Hs2).
    rewrite (Hs1 Hpin0), (Hs2 Hpout0).
    pose proof (mul_nonneg x pin Hxf Hxn Hpin Hpin0) as Ha.
    pose proof (mul_nonneg y pout Hyf Hyn Hpout Hpout0) as Hb.
    rewrite (add_zero_r _ Ha), (add_zero_l _ Hb).
    eexists. eexists. repeat split; reflexivity.
Qed.

Lemma calculate_cost_rounded_formula_witness :
  calculate_cost 2 3 sonnet_config
  = inr (cost_formula
           (F64.div (F64.of_int_raw 2) (F64.of_int_raw 1000))
           (F64.div (F64.of_int_raw 3) (F64.of_int_raw 1000))
           F64.lit_0_003 F64.lit_0_015)
  /\ exists input_only output_only,
       calculate_cost 2 0 sonnet_config = inr input_only
       /\ calculate_cost 0 3 sonnet_config = inr output_only
       /\ calculate_cost 2 3 sonnet_config = inr (F64.add input_only output_only).
Proof.
  assert (H2 : 0 <= 2 < 2 ^ 256) by (split; [lia | reflexivity]).
  assert (H3 : 0 <= 3 < 2 ^ 256) by (split; [lia | reflexivity]).
  destruct (calculate_cost_rounded_formula 2 3 sonnet_config H2 H3)
    as (Hformula & _ & _ & Hsplit).
  split; [exact Hformula|].
  apply Hsplit; reflexivity.
Defined.

(* ===================================================================== *)
(** * Further properties of the code *)
(* ===================================================================== *)

(* --------------------------------------------------------------------- *)
(** ** Decoding a complete response *)
(* --------------------------------------------------------------------- *)

Lemma family_of_tests (model_id : string) (f : family) :
  family_of model_id = Some f ->
  match f with
  | Chat => Py.str_in "anthropic.claude" model_id = true
  | InstructionTag =>
      Py.str_in "anthropic.claude" model_id = false
      /\ Py.str_in "meta.llama2" model_id = true
  | FieldNamed =>
      Py.str_in "anthropic.claude" model_id = false
      /\ Py.str_in "meta.llama2" model_id = false
      /\ Py.str_in "amazon.titan" model_id = true
  end.
Proof.
  unfold family_of. case_family model_id; destruct f; intros H;
    try discriminate; auto.
Qed.

(** Once the body is built and the transport has answered, the result is the
    decoded response, or the failure dict of the decoding fault. *)
Lemma single_shot_decodes c model_id prompt mt t payload response_body :
  model_request_body model_id prompt mt t = Some payload ->
  invoke_model c model_id payload = inr response_body ->
  invoke_bedrock_model c model_id prompt mt t
  = match (locals <- parse_response model_id response_body ;;
           success_result locals) with
    | inr r => r
    | inl e => error_result e
    end.
Proof.
  intros Hb Hc. unfold invoke_bedrock_model, invoke_bedrock_model_try.
  rewrite Hb. cbn [Py.read_local bind ret]. rewrite Hc. reflexivity.
Qed.

(** X1. Chat responses: the text is that of the first content block, whatever
    follows it and whatever other keys the response has; an empty content
    list and a response without usage are reported as failures. *)
Theorem chat_decode_reads_first_block
  (c : client) (model_id prompt : string) (max_tokens : Z) (temperature : F64.float64)
  (payload : pyval) (kvs : list (string * pyval)) :
  family_of model_id = Some Chat ->
  model_request_body model_id prompt max_tokens temperature = Some payload ->
  invoke_model c model_id payload = inr (PyDict kvs) ->
  (forall block more usage txt i o,
      Py.dict_get "content" kvs = Some (PyList (PyDict block :: more)) ->
      Py.dict_get "text" block = Some txt ->
      Py.dict_get "usage" kvs = Some (PyDict usage) ->
      Py.dict_get "input_tokens" usage = Some i ->
      Py.dict_get "output_tokens" usage = Some o ->
      invoke_bedrock_model c model_id prompt max_tokens temperature
      = MkResult txt i o true None)
  /\ (Py.dict_get "content" kvs = Some (PyList []) ->
      invoke_bedrock_model c model_id prompt max_tokens temperature
      = MkResult (PyStr "Error: list index out of range") (PyInt 0) (PyInt 0)
                 false (Some "list index out of range"))
  /\ (forall block more txt,
      Py.dict_get "content" kvs = Some (PyList (PyDict block :: more)) ->
      Py.dict_get "text" block = Some txt ->
      Py.dict_get "usage" kvs = None ->
      invoke_bedrock_model c model_id prompt max_tokens temperature
      = MkResult (PyStr "Error: 'usage'") (PyInt 0) (PyInt 0) false (Some "'usage'")).
Proof.
  intros Hf Hb Hc. apply family_of_tests in Hf.
  rewrite (single_shot_decodes _ _ _ _ _ _ _ Hb Hc).
  unfold parse_response. rewrite Hf. cbn [Py.getitem].
  split; [|split].
  - intros block more usage txt i o H1 H2 H3 H4 H5.
    rewrite H1, H3. cbn [bind ret Py.getitem0 Py.getitem].
    rewrite H2, H4, H5. reflexivity.
  - intros H1. rewrite H1. reflexivity.
  - intros block more txt H1 H2 H3.
    rewrite H1, H3. cbn [bind ret Py.getitem0 Py.getitem].
    rewrite H2. reflexivity.
Qed.

Lemma chat_decode_reads_first_block_witness :
  invoke_bedrock_model canned_client haiku_id "Hi" 50 F64.lit_0_5
  = MkResult (PyStr "Hello!") (PyInt 2) (PyInt 3) true None
  /\ invoke_bedrock_model
       (const_client (inr (PyDict [ ("content", PyList []) ])) (inr StreamEnd))
       haiku_id "Hi" 50 F64.lit_0_5
     = MkResult (PyStr "Error: list index out of range") (PyInt 0) (PyInt 0)
                false (Some "list index out of range").
Proof.
  split.
  - eapply (proj1 (chat_decode_reads_first_block canned_client haiku_id "Hi" 50
                     F64.lit_0_5 hi_chat_payload _ eq_refl eq_refl eq_refl));
      reflexivity.
  - eapply (proj1 (proj2 (chat_decode_reads_first_block
                     (const_client (inr (PyDict [ ("content", PyList []) ]))
                                   (inr StreamEnd))
                     haiku_id "Hi" 50 F64.lit_0_5 hi_chat_payload _
                     eq_refl eq_refl eq_refl)));
      reflexivity.
Defined.

(** X2. InstructionTag responses that are dicts: the result is a success exactly
    when the key generation is present; each token count is the value of its
    key when present and 0 when absent. *)
Theorem instruction_decode_defaults_counts
  (c : client) (model_id prompt : string) (max_tokens : Z) (temperature : F64.float64)
  (payload : pyval) (kvs : list (string * pyval)) :
  family_of model_id = Some InstructionTag ->
  model_request_body model_id prompt max_tokens temperature = Some payload ->
  invoke_model c model_id payload = inr (PyDict kvs) ->
  invoke_bedrock_model c model_id prompt max_tokens temperature
  = match Py.dict_get "generation" kvs with
    | Some txt =>
        MkResult txt
          match Py.dict_get "prompt_token_count" kvs with
          | Some i => i
          | None => PyInt 0
          end
          match Py.dict_get "generation_token_count" kvs with
          | Some o => o
          | None => PyInt 0
          end
          true None
    | None =>
        MkResult (PyStr "Error: 'generation'") (PyInt 0) (PyInt 0) false
                 (Some "'generation'")
    end.
Proof.
  intros Hf Hb Hc. apply family_of_tests in Hf. destruct Hf as [H1 H2].
  rewrite (single_shot_decodes _ _ _ _ _ _ _ Hb Hc).
  unfold parse_response. rewrite H1, H2. cbn [Py.getitem Py.get].
  destruct (Py.dict_get "generation" kvs) as [txt|]; [|reflexivity].
  destruct (Py.dict_get "prompt_token_count" kvs),
           (Py.dict_get "generation_token_count" kvs); reflexivity.
Qed.

Lemma instruction_decode_defaults_counts_witness :
  invoke_bedrock_model
    (const_client (inr (PyDict [ ("generation", PyStr "Hello!") ])) (inr StreamEnd))
    llama_id "Hi" 50 F64.lit_0_5
  = MkResult (PyStr "Hello!") (PyInt 0) (PyInt 0) true None.
Proof.
  apply (instruction_decode_defaults_counts
           (const_client (inr (PyDict [ ("generation", PyStr "Hello!") ]))
                         (inr StreamEnd))
           llama_id "Hi" 50 F64.lit_0_5
           (PyDict [ ("prompt", PyStr "<s>[INST] Hi [/INST]");
                     ("max_gen_len", PyInt 50);
                     ("temperature", PyFloat F64.lit_0_5);
                     ("top_p", PyFloat F64.lit_0_9) ])
           [ ("generation", PyStr "Hello!") ]); reflexivity.
Defined.

(** X3. FieldNamed responses: text and output count come from the first element
    of results, the input count from the top level; an empty results list is
    reported as a failure. *)
Theorem field_named_decode_reads_first_result
  (c : client) (model_id prompt : string) (max_tokens : Z) (temperature : F64.float64)
  (payload : pyval) (kvs : list (string * pyval)) :
  family_of model_id = Some FieldNamed ->
  model_request_body model_id prompt max_tokens temperature = Some payload ->
  invoke_model c model_id payload = inr (PyDict kvs) ->
  (forall first more txt i o,
      Py.dict_get "results" kvs = Some (PyList (PyDict first :: more)) ->
      Py.dict_get "outputText" first = Some txt ->
      Py.dict_get "inputTextTokenCount" kvs = Some i ->
      Py.dict_get "tokenCount" first = Some o ->
      invoke_bedrock_model c model_id prompt max_tokens temperature
      = MkResult txt i o true None)
  /\ (Py.dict_get "results" kvs = Some (PyList []) ->
      invoke_bedrock_model c model_id prompt max_tokens temperature
      = MkResult (PyStr "Error: list index out of range") (PyInt 0) (PyInt 0)
                 false (Some "list index out of range"))
  /\ (Py.dict_get "results" kvs = None ->
      invoke_bedrock_model c model_id prompt max_tokens temperature
      = MkResult (PyStr "Error: 'results'") (PyInt 0) (PyInt 0)
                 false (Some "'results'")).
Proof.
  intros Hf Hb Hc. apply family_of_tests in Hf. destruct Hf as (H1 & H2 & H3).
  rewrite (single_shot_decodes _ _ _ _ _ _ _ Hb Hc).
  unfold parse_response. rewrite H1, H2, H3. cbn [Py.getitem].
  split; [|split].
  - intros first more txt i o R1 R2 R3 R4.
    rewrite R1, R3. cbn [bind ret Py.getitem0 Py.getitem].
    rewrite R2, R4. reflexivity.
  - intros R1. rewrite R1. reflexivity.
  - intros R1. rewrite R1. reflexivity.
Qed.

Lemma field_named_decode_reads_first_result_witness :
  invoke_bedrock_model
    (const_client
       (inr (full_response FieldNamed (PyStr "Hello!") (PyInt 2) (PyInt 3)))
       (inr StreamEnd))
    titan_id "Hi" 50 F64.lit_0_5
  = MkResult (PyStr "Hello!") (PyInt 2) (PyInt 3) true None.
Proof.
  eapply (proj1 (field_named_decode_reads_first_result
                   (const_client
                      (inr (full_response FieldNamed (PyStr "Hello!") (PyInt 2) (PyInt 3)))
                      (inr StreamEnd))
                   titan_id "Hi" 50 F64.lit_0_5 _ _ eq_refl eq_refl eq_refl));
    reflexivity.
Defined.

(** X4. A response body that is not a JSON object is never decoded into a
    success, whatever the model id. *)
Theorem non_object_response_is_failure
  (c : client) (model_id prompt : string) (max_tokens : Z) (temperature : F64.float64)
  (payload response_body : pyval) :
  model_request_body model_id prompt max_tokens temperature = Some payload ->
  invoke_model c model_id payload = inr response_body ->
  is_dict response_body = false ->
  success (invoke_bedrock_model c model_id prompt max_tokens temperature) = false
  /\ input_tokens (invoke_bedrock_model c model_id prompt max_tokens temperature)
     = PyInt 0
  /\ output_tokens (invoke_bedrock_model c model_id prompt max_tokens temperature)
     = PyInt 0.
Proof.
  intros Hb Hc Hd.
  rewrite (single_shot_decodes _ _ _ _ _ _ _ Hb Hc).
  unfold parse_response.
  case_family model_id; destruct response_body; try discriminate Hd;
    repeat split; reflexivity.
Qed.

Lemma non_object_response_is_failure_witness :
  success (invoke_bedrock_model
             (const_client (inr (PyList [ PyStr "Hello!" ])) (inr StreamEnd))
             llama_id "Hi" 50 F64.lit_0_5) = false.
Proof.
  eapply (proj1 (non_object_response_is_failure
                   (const_client (inr (PyList [ PyStr "Hello!" ])) (inr StreamEnd))
                   llama_id "Hi" 50 F64.lit_0_5 _ _ eq_refl eq_refl eq_refl)).
Defined.

(* --------------------------------------------------------------------- *)
(** ** What reaches the transport *)
(* --------------------------------------------------------------------- *)

(** X5. Each entry point consults the transport only through its own method,
    called with the model id as given and the body it built: two clients that
    answer that one call alike give the same outcome, whatever else they do. *)
Theorem entry_points_make_one_transport_call
  (c c' : client) (model_id prompt : string) (max_tokens : Z)
  (temperature : F64.float64) :
  ((forall payload,
       model_request_body model_id prompt max_tokens temperature = Some payload ->
       invoke_model c model_id payload = invoke_model c' model_id payload) ->
   invoke_bedrock_model c model_id prompt max_tokens temperature
   = invoke_bedrock_model c' model_id prompt max_tokens temperature)
  /\ ((forall payload,
          streaming_request_body model_id prompt max_tokens temperature = Some payload ->
          invoke_model_with_response_stream c model_id payload
          = invoke_model_with_response_stream c' model_id payload) ->
      invoke_bedrock_streaming c model_id prompt max_tokens temperature
      = invoke_bedrock_streaming c' model_id prompt max_tokens temperature).
Proof.
  split; intros H.
  - unfold invoke_bedrock_model, invoke_bedrock_model_try.
    destruct (model_request_body model_id prompt max_tokens temperature)
      as [payload|]; [|reflexivity].
    cbn [Py.read_local bind ret]. now rewrite (H payload eq_refl).
  - unfold invoke_bedrock_streaming, invoke_bedrock_streaming_try.
    destruct (streaming_request_body model_id prompt max_tokens temperature)
      as [payload|]; [|reflexivity].
    cbn [Py.read_local bind ret]. now rewrite (H payload eq_refl).
Qed.

Lemma entry_points_make_one_transport_call_witness :
  invoke_bedrock_model
    (const_client (inr hello_response) (inr broken_stream))
    haiku_id "Hi" 50 F64.lit_0_5
  = invoke_bedrock_model canned_client haiku_id "Hi" 50 F64.lit_0_5.
Proof.
  apply (proj1 (entry_points_make_one_transport_call
                  (const_client (inr hello_response) (inr broken_stream))
                  canned_client haiku_id "Hi" 50 F64.lit_0_5)).
  intros payload _. reflexivity.
Defined.

Lemma append_inj_l (a s1 s2 : string) : a ++ s1 = a ++ s2 -> s1 = s2.
Proof.
  induction a as [|x a IH]; simpl; intros H; [exact H|].
  inversion H. auto.
Qed.

Lemma append_inj_r (b s1 s2 : string) : s1 ++ b = s2 ++ b -> s1 = s2.
Proof.
  revert s2. induction s1 as [|x s1 IH]; intros [|y s2] H; simpl in H.
  - reflexivity.
  - apply (f_equal String.length) in H. simpl in H.
    rewrite length_append in H. lia.
  - apply (f_equal String.length) in H. simpl in H.
    rewrite length_append in H. lia.
  - inversion H. f_equal. now apply IH.
Qed.

(** X6. Nothing of a request is lost in its body: for one model id, equal bodies
    come only from equal prompt, max_tokens and temperature, in both entry
    points. *)
Theorem request_body_determines_request
  (model_id p p' : string) (mt mt' : Z) (t t' : F64.float64) (body : pyval) :
  (model_request_body model_id p mt t = Some body ->
   model_request_body model_id p' mt' t' = Some body ->
   p = p' /\ mt = mt' /\ t = t')
  /\ (streaming_request_body model_id p mt t = Some body ->
      streaming_request_body model_id p' mt' t' = Some body ->
      p = p' /\ mt = mt' /\ t = t').
Proof.
  unfold model_request_body, streaming_request_body.
  split; case_family model_id; intros H1 H2; try discriminate;
    rewrite <- H2 in H1; inversion H1; subst; repeat split; trivial;
    eapply append_inj_r; eassumption.
Qed.

Lemma request_body_determines_request_witness :
  "Hi" = "Hi" /\ 50 = 50 /\ F64.lit_0_5 = F64.lit_0_5.
Proof.
  apply (proj1 (request_body_determines_request
                  llama_id "Hi" "Hi" 50 50 F64.lit_0_5 F64.lit_0_5
                  (PyDict [ ("prompt", PyStr "<s>[INST] Hi [/INST]");
                            ("max_gen_len", PyInt 50);
                            ("temperature", PyFloat F64.lit_0_5);
                            ("top_p", PyFloat F64.lit_0_9) ]))); reflexivity.
Defined.

(* --------------------------------------------------------------------- *)
(** ** Decoding a stream *)
(* --------------------------------------------------------------------- *)

Lemma invoke_bedrock_streaming_completes c model_id prompt mt t :
  raised (invoke_bedrock_streaming c model_id prompt mt t) = None.
Proof.
  unfold invoke_bedrock_streaming.
  destruct (raised (invoke_bedrock_streaming_try c model_id prompt mt t)) eqn:H;
    [reflexivity | exact H].
Qed.

Lemma streaming_starts_loop c model_id prompt mt t payload s :
  streaming_request_body model_id prompt mt t = Some payload ->
  invoke_model_with_response_stream c model_id payload = inr s ->
  invoke_bedrock_streaming_try c model_id prompt mt t
  = stream_loop model_id EmptyString s.
Proof.
  intros Hb Hc. unfold invoke_bedrock_streaming_try.
  rewrite Hb. cbn [Py.read_local bind ret]. now rewrite Hc.
Qed.

Lemma append_text_chunk (model_id : string) (f : family) (full_text t : string) :
  family_of model_id = Some f ->
  append_chunk model_id full_text (text_chunk f t) = inr (full_text ++ t).
Proof.
  intros Hf. apply family_of_tests in Hf. unfold append_chunk.
  destruct f.
  - rewrite Hf. reflexivity.
  - destruct Hf as [H1 H2]. rewrite H1, H2. reflexivity.
  - destruct Hf as (H1 & H2 & H3). rewrite H1, H2, H3. reflexivity.
Qed.

Lemma stream_loop_text_chunks (model_id : string) (f : family) (ts : list string) :
  family_of model_id = Some f ->
  forall full_text,
    stream_loop model_id full_text
      (events_then (map (fun t => inr (text_chunk f t)) ts) StreamEnd)
    = GenRun (running_concat full_text ts) None.
Proof.
  intros Hf. induction ts as [|t rest IH]; intros full_text; [reflexivity|].
  cbn [map events_then stream_loop bind].
  rewrite (append_text_chunk _ _ _ _ Hf), IH. reflexivity.
Qed.

Lemma last_cons_default {A} (a d : A) (l : list A) : last (a :: l) d = last l a.
Proof.
  revert a d. induction l as [|b l IH]; intros a d; [reflexivity|].
  change (last (a :: b :: l) d) with (last (b :: l) d).
  now rewrite (IH b d), (IH b a).
Qed.

Lemma last_running_concat (ts : list string) :
  forall acc, last (running_concat acc ts) acc = acc ++ join_texts ts.
Proof.
  induction ts as [|t rest IH]; intros acc.
  - simpl. now rewrite append_nil_r.
  - cbn [running_concat]. rewrite last_cons_default, IH.
    simpl. apply append_assoc.
Qed.

Lemma running_concat_length (ts : list string) :
  forall acc, List.length (running_concat acc ts) = List.length ts.
Proof. induction ts as [|t rest IH]; intros acc; simpl; [reflexivity | now rewrite IH]. Qed.

(** X7. A stream of text chunks, for any of the three families: the generator
    yields one frame per chunk, the n-th frame is the first n texts joined,
    and the last frame is all the texts joined; no error frame is added. *)
Theorem streamed_texts_accumulate
  (c : client) (model_id prompt : string) (max_tokens : Z) (temperature : F64.float64)
  (f : family) (payload : pyval) (ts : list string) :
  family_of model_id = Some f ->
  streaming_request_body model_id prompt max_tokens temperature = Some payload ->
  invoke_model_with_response_stream c model_id payload
  = inr (events_then (map (fun t => inr (text_chunk f t)) ts) StreamEnd) ->
  invoke_bedrock_streaming c model_id prompt max_tokens temperature
  = GenRun (running_concat EmptyString ts) None
  /\ List.length (running_concat EmptyString ts) = List.length ts
  /\ last (running_concat EmptyString ts) EmptyString = join_texts ts.
Proof.
  intros Hf Hb Hc. split; [|split].
  - unfold invoke_bedrock_streaming.
    rewrite (streaming_starts_loop _ _ _ _ _ _ _ Hb Hc).
    rewrite (stream_loop_text_chunks _ _ _ Hf). reflexivity.
  - apply running_concat_length.
  - apply (last_running_concat ts EmptyString).
Qed.

Lemma streamed_texts_accumulate_witness :
  invoke_bedrock_streaming
    (const_client (inr hello_response)
       (inr (events_then
               (map (fun t => inr (text_chunk FieldNamed t)) [ "Hel"; "lo"; "!" ])
               StreamEnd)))
    titan_id "Hi" 50 F64.lit_0_5
  = GenRun [ "Hel"; "Hello"; "Hello!" ] None.
Proof.
  eapply (proj1 (streamed_texts_accumulate
                   (const_client (inr hello_response)
                      (inr (events_then
                              (map (fun t => inr (text_chunk FieldNamed t))
                                   [ "Hel"; "lo"; "!" ])
                              StreamEnd)))
                   titan_id "Hi" 50 F64.lit_0_5 FieldNamed _ [ "Hel"; "lo"; "!" ]
                   eq_refl eq_refl eq_refl)).
Defined.

Lemma parse_full_response (model_id : string) (f : family) (t i o : pyval) :
  family_of model_id = Some f ->
  (locals <- parse_response model_id (full_response f t i o) ;;
   success_result locals) = inr (MkResult t i o true None).
Proof.
  intros Hf. apply family_of_tests in Hf. unfold parse_response.
  destruct f.
  - rewrite Hf. reflexivity.
  - destruct Hf as [H1 H2]. rewrite H1, H2. reflexivity.
  - destruct Hf as (H1 & H2 & H3). rewrite H1, H2, H3. reflexivity.
Qed.

(** X8. The two entry points agree on the text: when the transport streams texts
    in chunks, the last frame of the streaming entry point is the text the
    single-shot entry point decodes from a complete response that carries the
    same texts joined, for each family. *)
Theorem last_frame_is_single_shot_text
  (c : client) (model_id prompt : string) (max_tokens : Z) (temperature : F64.float64)
  (f : family) (ts : list string) (i o : pyval) :
  family_of model_id = Some f ->
  (forall payload,
      invoke_model c model_id payload
      = inr (full_response f (PyStr (join_texts ts)) i o)) ->
  (forall payload,
      invoke_model_with_response_stream c model_id payload
      = inr (events_then (map (fun t => inr (text_chunk f t)) ts) StreamEnd)) ->
  text (invoke_bedrock_model c model_id prompt max_tokens temperature)
  = PyStr (last (yielded (invoke_bedrock_streaming
                            c model_id prompt max_tokens temperature))
                EmptyString).
Proof.
  intros Hf Hsingle Hstream.
  assert (Hsome : family_of model_id <> None) by congruence.
  destruct (model_request_body model_id prompt max_tokens temperature)
    as [b|] eqn:Hb.
  2:{ exfalso. apply Hsome. unfold family_of.
      unfold model_request_body in Hb. case_family model_id; congruence. }
  destruct (streaming_request_body model_id prompt max_tokens temperature)
    as [b'|] eqn:Hb'.
  2:{ exfalso. apply Hsome. unfold family_of.
      unfold streaming_request_body in Hb'. case_family model_id; congruence. }
  rewrite (single_shot_decodes _ _ _ _ _ _ _ Hb (Hsingle b)).
  rewrite (parse_full_response _ _ _ _ _ Hf).
  unfold invoke_bedrock_streaming.
  rewrite (streaming_starts_loop _ _ _ _ _ _ _ Hb' (Hstream b')).
  rewrite (stream_loop_text_chunks _ _ _ Hf).
  cbn [raised yielded text]. now rewrite (last_running_concat ts EmptyString).
Qed.

Lemma last_frame_is_single_shot_text_witness :
  text (invoke_bedrock_model
          (const_client
             (inr (full_response InstructionTag (PyStr "Hello!") (PyInt 2) (PyInt 3)))
             (inr (events_then
                     (map (fun t => inr (text_chunk InstructionTag t)) [ "Hel"; "lo!" ])
                     StreamEnd)))
          llama_id "Hi" 50 F64.lit_0_5)
  = PyStr (last (yielded (invoke_bedrock_streaming
          (const_client
             (inr (full_response InstructionTag (PyStr "Hello!") (PyInt 2) (PyInt 3)))
             (inr (events_then
                     (map (fun t => inr (text_chunk InstructionTag t)) [ "Hel"; "lo!" ])
                     StreamEnd)))
          llama_id "Hi" 50 F64.lit_0_5)) EmptyString).
Proof.
  apply (last_frame_is_single_shot_text
           (const_client
              (inr (full_response InstructionTag (PyStr "Hello!") (PyInt 2) (PyInt 3)))
              (inr (events_then
                      (map (fun t => inr (text_chunk InstructionTag t)) [ "Hel"; "lo!" ])
                      StreamEnd)))
           llama_id "Hi" 50 F64.lit_0_5 InstructionTag [ "Hel"; "lo!" ]
           (PyInt 2) (PyInt 3)).
  - reflexivity.
  - intros payload. reflexivity.
  - intros payload. reflexivity.
Defined.

(** X9. Chat streams: an event whose type is not content_block_delta adds no text
    but still yields a frame, the accumulated text once more, and the loop
    goes on; an event without a type ends the loop with a KeyError. *)
Theorem chat_other_events_repeat_frame
  (model_id full_text : string) (kvs : list (string * pyval)) (rest : event_stream) :
  family_of model_id = Some Chat ->
  (forall ty,
      Py.dict_get "type" kvs = Some ty ->
      Py.eq_str ty "content_block_delta" = false ->
      stream_loop model_id full_text (StreamEvent (inr (PyDict kvs)) rest)
      = GenRun (full_text :: yielded (stream_loop model_id full_text rest))
               (raised (stream_loop model_id full_text rest)))
  /\ (Py.dict_get "type" kvs = None ->
      stream_loop model_id full_text (StreamEvent (inr (PyDict kvs)) rest)
      = GenRun [] (Some (Py.KeyError "'type'"))).
Proof.
  intros Hf. apply family_of_tests in Hf.
  cbn [stream_loop bind]. unfold append_chunk. rewrite Hf. cbn [Py.getitem].
  split.
  - intros ty Hty Hne. rewrite Hty. cbn [bind ret]. rewrite Hne. reflexivity.
  - intros Hty. rewrite Hty. reflexivity.
Qed.

Lemma chat_other_events_repeat_frame_witness :
  stream_loop haiku_id "Hello"
    (StreamEvent (inr (PyDict [ ("type", PyStr "message_stop") ])) StreamEnd)
  = GenRun [ "Hello" ] None.
Proof.
  apply (proj1 (chat_other_events_repeat_frame haiku_id "Hello"
                  [ ("type", PyStr "message_stop") ] StreamEnd eq_refl)
           (PyStr "message_stop")); reflexivity.
Defined.

(** X10. InstructionTag and FieldNamed streams: a chunk without the text key
    (generation, outputText) adds nothing and still yields a frame; a chunk in
    which the key holds null ends the loop with a TypeError. *)
Theorem chunk_without_text_repeats_frame
  (model_id full_text : string) (f : family) (key : string)
  (kvs : list (string * pyval)) (rest : event_stream) :
  family_of model_id = Some f ->
  (f = InstructionTag /\ key = "generation")
  \/ (f = FieldNamed /\ key = "outputText") ->
  (Py.dict_get key kvs = None ->
   stream_loop model_id full_text (StreamEvent (inr (PyDict kvs)) rest)
   = GenRun (full_text :: yielded (stream_loop model_id full_text rest))
            (raised (stream_loop model_id full_text rest)))
  /\ (Py.dict_get key kvs = Some PyNone ->
      exists msg,
        stream_loop model_id full_text (StreamEvent (inr (PyDict kvs)) rest)
        = GenRun [] (Some (Py.TypeError msg))).
Proof.
  intros Hf Hkey. apply family_of_tests in Hf.
  cbn [stream_loop bind]. unfold append_chunk.
  destruct Hkey as [[-> ->] | [-> ->]].
  - destruct Hf as [H1 H2]. rewrite H1, H2. cbn [Py.get]. split; intros Hk; rewrite Hk.
    + cbn [bind ret Py.str_iadd]. rewrite append_nil_r. reflexivity.
    + eexists. reflexivity.
  - destruct Hf as (H1 & H2 & H3). rewrite H1, H2, H3. cbn [Py.get].
    split; intros Hk; rewrite Hk.
    + cbn [bind ret Py.str_iadd]. rewrite append_nil_r. reflexivity.
    + eexists. reflexivity.
Qed.

Lemma chunk_without_text_repeats_frame_witness :
  stream_loop llama_id "Hello"
    (StreamEvent (inr (PyDict [ ("stop_reason", PyStr "stop") ])) StreamEnd)
  = GenRun [ "Hello" ] None.
Proof.
  apply (proj1 (chunk_without_text_repeats_frame llama_id "Hello"
                  InstructionTag "generation"
                  [ ("stop_reason", PyStr "stop") ] StreamEnd eq_refl
                  (or_introl (conj eq_refl eq_refl)))).
  reflexivity.
Defined.

Lemma stream_loop_cut_at_fault (model_id : string) (e : exn)
      (evs : list (result pyval)) :
  forall full_text,
  exists frames e',
    (List.length frames <= List.length evs)%nat
    /\ forall rest,
        stream_loop model_id full_text (events_then evs (StreamEvent (inl e) rest))
        = GenRun frames (Some e').
Proof.
  induction evs as [|ev more IH]; intros full_text.
  - exists [], e. split; [simpl; lia | reflexivity].
  - cbn [events_then stream_loop].
    destruct (chunk <- ev;; append_chunk model_id full_text chunk)
      as [e0|full_text'].
    + exists [], e0. split; [simpl; lia | reflexivity].
    + destruct (IH full_text') as (frames & e' & Hlen & Hcut).
      exists (full_text' :: frames), e'. split; [simpl; lia|].
      intros rest. now rewrite Hcut.
Qed.

(** X11. The stream is not read past the first event that fails to parse: what
    follows it has no influence on the outcome, which is at most one frame per
    earlier event and then one error frame. *)
Theorem stream_not_read_past_fault
  (c c' : client) (model_id prompt : string) (max_tokens : Z)
  (temperature : F64.float64) (payload : pyval)
  (evs : list (result pyval)) (e : exn) (rest rest' : event_stream) :
  streaming_request_body model_id prompt max_tokens temperature = Some payload ->
  invoke_model_with_response_stream c model_id payload
  = inr (events_then evs (StreamEvent (inl e) rest)) ->
  invoke_model_with_response_stream c' model_id payload
  = inr (events_then evs (StreamEvent (inl e) rest')) ->
  invoke_bedrock_streaming c model_id prompt max_tokens temperature
  = invoke_bedrock_streaming c' model_id prompt max_tokens temperature
  /\ exists frames cause,
       yielded (invoke_bedrock_streaming c model_id prompt max_tokens temperature)
       = (frames ++ [("Streaming Error: " ++ cause)%string])%list
       /\ (List.length frames <= List.length evs)%nat.
Proof.
  intros Hb Hc Hc'.
  destruct (stream_loop_cut_at_fault model_id e evs EmptyString)
    as (frames & e' & Hlen & Hcut).
  unfold invoke_bedrock_streaming.
  rewrite (streaming_starts_loop _ _ _ _ _ _ _ Hb Hc).
  rewrite (streaming_starts_loop _ _ _ _ _ _ _ Hb Hc').
  rewrite !Hcut. cbn [raised yielded]. split; [reflexivity|].
  exists frames, (exn_str e'). split; [reflexivity | exact Hlen].
Qed.

Lemma stream_not_read_past_fault_witness :
  invoke_bedrock_streaming
    (const_client (inr hello_response)
       (inr (events_then [ inr (delta_chunk "Hello") ]
               (StreamEvent (inl connection_reset) StreamEnd))))
    haiku_id "Hi" 50 F64.lit_0_5
  = invoke_bedrock_streaming
      (const_client (inr hello_response)
         (inr (events_then [ inr (delta_chunk "Hello") ]
                 (StreamEvent (inl connection_reset)
                    (StreamEvent (inr (delta_chunk ", world")) StreamEnd)))))
      haiku_id "Hi" 50 F64.lit_0_5.
Proof.
  apply (proj1 (stream_not_read_past_fault
                  (const_client (inr hello_response)
                     (inr (events_then [ inr (delta_chunk "Hello") ]
                             (StreamEvent (inl connection_reset) StreamEnd))))
                  (const_client (inr hello_response)
                     (inr (events_then [ inr (delta_chunk "Hello") ]
                             (StreamEvent (inl connection_reset)
                                (StreamEvent (inr (delta_chunk ", world")) StreamEnd)))))
                  haiku_id "Hi" 50 F64.lit_0_5 hi_chat_payload
                  [ inr (delta_chunk "Hello") ] connection_reset
                  StreamEnd (StreamEvent (inr (delta_chunk ", world")) StreamEnd)
                  eq_refl eq_refl eq_refl)).
Defined.

(* --------------------------------------------------------------------- *)
(** ** The handler of the generate button *)
(* --------------------------------------------------------------------- *)

Lemma last_frame_app (frames : list string) (frame : string) :
  last_frame (frames ++ [frame]) = Some frame.
Proof. unfold last_frame. now rewrite fold_left_app. Qed.

(** X12. Streaming mode: every frame of the generator is put into the placeholder,
    in order, and [final_response] is the last of them. *)
Theorem streaming_mode_shows_every_frame
  (c : client) (config : model_config) (prompt : string)
  (max_tokens : Z) (temperature : F64.float64) (frames : list string) (frame : string) :
  yielded (invoke_bedrock_streaming c (cfg_id config) prompt max_tokens temperature)
  = (frames ++ [frame])%list ->
  main_streaming c config prompt max_tokens temperature
  = (map PlaceholderMarkdown (frames ++ [frame]), frame).
Proof.
  intros Hy. unfold main_streaming.
  rewrite invoke_bedrock_streaming_completes, Hy, last_frame_app. reflexivity.
Qed.

Lemma streaming_mode_shows_every_frame_witness :
  main_streaming (const_client (inr hello_response) (inr broken_stream))
                 (ModelConfig haiku_id F64.lit_0_00025 F64.lit_0_00125 4096 EmptyString)
                 "Hi" 50 F64.lit_0_5
  = (map PlaceholderMarkdown
         ([ "Hello"; "Hello, world" ] ++ [ "Streaming Error: reset" ]),
     "Streaming Error: reset").
Proof.
  apply (streaming_mode_shows_every_frame
           (const_client (inr hello_response) (inr broken_stream))
           (ModelConfig haiku_id F64.lit_0_00025 F64.lit_0_00125 4096 EmptyString)
           "Hi" 50 F64.lit_0_5 [ "Hello"; "Hello, world" ] "Streaming Error: reset").
  reflexivity.
Defined.

(** X13. Streaming mode: a fault of the transport or of the decoding never reaches
    the handler's own [except] branch.  Whenever something raised inside the
    generator, the page shows the frames decoded so far and then the text
    "Streaming Error: <cause>" as ordinary content of the placeholder, no
    error box, and [final_response] is that text. *)
Theorem streaming_faults_are_shown_as_text
  (c : client) (config : model_config) (prompt : string)
  (max_tokens : Z) (temperature : F64.float64) (e : exn) :
  raised (invoke_bedrock_streaming_try c (cfg_id config) prompt max_tokens temperature)
  = Some e ->
  main_streaming c config prompt max_tokens temperature
  = (map PlaceholderMarkdown
         (yielded (invoke_bedrock_streaming_try
                     c (cfg_id config) prompt max_tokens temperature)
          ++ [("Streaming Error: " ++ exn_str e)%string]),
     "Streaming Error: " ++ exn_str e).
Proof.
  intros Hr. unfold main_streaming, invoke_bedrock_streaming. rewrite Hr.
  cbn [raised yielded]. rewrite last_frame_app. reflexivity.
Qed.

Lemma streaming_faults_are_shown_as_text_witness :
  main_streaming (const_client (inr hello_response) (inl connection_reset))
                 (ModelConfig haiku_id F64.lit_0_00025 F64.lit_0_00125 4096 EmptyString)
                 "Hi" 50 F64.lit_0_5
  = ([ PlaceholderMarkdown "Streaming Error: reset" ], "Streaming Error: reset").
Proof.
  apply (streaming_faults_are_shown_as_text
           (const_client (inr hello_response) (inl connection_reset))
           (ModelConfig haiku_id F64.lit_0_00025 F64.lit_0_00125 4096 EmptyString)
           "Hi" 50 F64.lit_0_5 connection_reset).
  reflexivity.
Defined.

(** X14. Streaming mode: the handler's error box appears exactly when the
    generator yields nothing at all, that is when the stream ends before its
    first event; the loop variable is then unassigned, the box reports that,
    and [final_response] is empty. *)
Theorem streaming_error_box_only_for_empty_stream
  (c : client) (config : model_config) (prompt : string)
  (max_tokens : Z) (temperature : F64.float64) :
  ((exists message,
       In (ErrorBox message)
          (fst (main_streaming c config prompt max_tokens temperature)))
   <-> invoke_bedrock_streaming_try c (cfg_id config) prompt max_tokens temperature
       = GenRun [] None)
  /\ (invoke_bedrock_streaming_try c (cfg_id config) prompt max_tokens temperature
      = GenRun [] None ->
      main_streaming c config prompt max_tokens temperature
      = ([ ErrorBox ("Streaming error: "
                     ++ exn_str (Py.UnboundLocalError "partial_response")) ],
         EmptyString)).
Proof.
  assert (Hno : forall (l : list string) m, ~ In (ErrorBox m) (map PlaceholderMarkdown l)).
  { intros l m Hin. apply in_map_iff in Hin. destruct Hin as (x & Hx & _).
    discriminate. }
  unfold main_streaming, invoke_bedrock_streaming.
  destruct (invoke_bedrock_streaming_try c (cfg_id config) prompt max_tokens temperature)
    as [frames [e|]]; cbn [raised yielded].
  - rewrite last_frame_app. cbn [Py.read_local ret fst]. split.
    + split; [|discriminate]. intros [m Hin]. now apply Hno in Hin.
    + discriminate.
  - destruct frames as [|f0 frames] using rev_ind.
    + cbn. split; [|reflexivity]. split; [reflexivity|].
      intros _. eexists. left. reflexivity.
    + rewrite last_frame_app. cbn [Py.read_local ret fst]. split.
      * split.
        -- intros [m Hin]. now apply Hno in Hin.
        -- intros H. inversion H. now destruct frames.
      * intros H. inversion H. now destruct frames.
Qed.

Lemma streaming_error_box_only_for_empty_stream_witness :
  main_streaming canned_client
                 (ModelConfig haiku_id F64.lit_0_00025 F64.lit_0_00125 4096 EmptyString)
                 "Hi" 50 F64.lit_0_5
  = ([ ErrorBox "Streaming error: cannot access local variable 'partial_response' where it is not associated with a value" ],
     EmptyString).
Proof.
  apply (proj2 (streaming_error_box_only_for_empty_stream canned_client
                  (ModelConfig haiku_id F64.lit_0_00025 F64.lit_0_00125 4096 EmptyString)
                  "Hi" 50 F64.lit_0_5)).
  reflexivity.
Defined.

Lemma div_by_1000_number (v : pyval) (x : F64.float64) :
  div_by_1000 v = inr x -> is_number v = true.
Proof. destruct v; simpl; intros H; try discriminate; reflexivity. Qed.

Lemma calculate_cost_dyn_int (i o : Z) (config : model_config) :
  calculate_cost_dyn (PyInt i) (PyInt o) config = calculate_cost i o config.
Proof. reflexivity. Qed.

Lemma calculate_cost_in_range (i o : Z) (config : model_config) :
  0 <= i < 2 ^ 256 -> 0 <= o < 2 ^ 256 ->
  exists x, calculate_cost i o config = inr x.
Proof.
  intros Hi Ho.
  destruct (int_true_div_in_range i Hi) as (a & Ha & _).
  destruct (int_true_div_in_range o Ho) as (b & Hb & _).
  unfold calculate_cost. rewrite Ha, Hb. cbn [bind ret]. eauto.
Qed.

(** X15. Non-streaming mode, failed call: whatever raised inside
    [invoke_bedrock_model], the page shows one error box
    "Generation failed: <cause>", no text, and the usage history is left as
    it was. *)
Theorem failed_call_is_reported_not_recorded
  (c : client) (selected_model : string) (config : model_config) (prompt : string)
  (max_tokens : Z) (temperature : F64.float64)
  (start_time end_time : F64.float64) (now : Z) (history : list usage_data)
  (e : exn) :
  invoke_bedrock_model_try c (cfg_id config) prompt max_tokens temperature = inl e ->
  main_single_shot c selected_model config prompt max_tokens temperature
                   start_time end_time now history
  = Page [ ErrorBox ("Generation failed: " ++ exn_str e) ] history None.
Proof.
  intros Htry. unfold main_single_shot.
  rewrite (invoke_bedrock_model_caught _ _ _ _ _ _ Htry). reflexivity.
Qed.

Lemma failed_call_is_reported_not_recorded_witness :
  main_single_shot (const_client (inl connection_reset) (inr StreamEnd))
                   "Claude 3 Sonnet" sonnet_config "Hi" 50 F64.lit_0_5
                   F64.lit_0_5 F64.lit_0_7 0 []
  = Page [ ErrorBox "Generation failed: reset" ] [] None.
Proof.
  apply (failed_call_is_reported_not_recorded
           (const_client (inl connection_reset) (inr StreamEnd))
           "Claude 3 Sonnet" sonnet_config "Hi" 50 F64.lit_0_5
           F64.lit_0_5 F64.lit_0_7 0 [] connection_reset).
  reflexivity.
Defined.

(** X16. Non-streaming mode, successful call with a text and integer token counts
    (below 2^256): the page shows the text, and exactly one entry is appended
    to the usage history, holding the model name, the lengths of prompt and
    text, the token counts as decoded, their cost by [calculate_cost] and the
    elapsed time. *)
Theorem successful_call_is_recorded
  (c : client) (selected_model : string) (config : model_config) (prompt : string)
  (max_tokens : Z) (temperature : F64.float64)
  (start_time end_time : F64.float64) (now : Z) (history : list usage_data)
  (r : GenerationResult) (txt : string) (i o : Z) :
  invoke_bedrock_model_try c (cfg_id config) prompt max_tokens temperature = inr r ->
  text r = PyStr txt ->
  input_tokens r = PyInt i -> 0 <= i < 2 ^ 256 ->
  output_tokens r = PyInt o -> 0 <= o < 2 ^ 256 ->
  exists cost,
    calculate_cost i o config = inr cost
    /\ main_single_shot c selected_model config prompt max_tokens temperature
                        start_time end_time now history
       = Page [ Markdown (PyStr txt) ]
              (history ++
               [ UsageData now selected_model (String.length prompt)
                           (String.length txt) (PyInt i) (PyInt o) cost
                           (float_sub end_time start_time) ])
              None.
Proof.
  intros Htry Htxt Hi Hir Ho Hor.
  destruct (calculate_cost_in_range i o config Hir Hor) as [cost Hcost].
  exists cost. split; [exact Hcost|].
  apply invoke_bedrock_model_returned in Htry. destruct Htry as (Hres & Hs & _).
  unfold main_single_shot. rewrite Hres, Hs, Htxt, Hi, Ho.
  rewrite calculate_cost_dyn_int, Hcost. reflexivity.
Qed.

Lemma successful_call_is_recorded_witness :
  exists cost,
    calculate_cost 2 3 sonnet_config = inr cost
    /\ main_single_shot canned_client "Claude 3 Sonnet" sonnet_config "Hi" 50
                        F64.lit_0_5 F64.lit_0_5 F64.lit_0_7 0 []
       = Page [ Markdown (PyStr "Hello!") ]
              ([] ++ [ UsageData 0 "Claude 3 Sonnet" 2 6 (PyInt 2) (PyInt 3) cost
                                 (float_sub F64.lit_0_7 F64.lit_0_5) ])
              None.
Proof.
  apply (successful_call_is_recorded canned_client "Claude 3 Sonnet" sonnet_config
           "Hi" 50 F64.lit_0_5 F64.lit_0_5 F64.lit_0_7 0 []
           (MkResult (PyStr "Hello!") (PyInt 2) (PyInt 3) true None) "Hello!" 2 3);
    try reflexivity; split; try lia; reflexivity.
Defined.

(** X17. Non-streaming mode, successful call whose input token count is not a
    number (null, a string, a list, an object): the text is shown, then the
    division in [calculate_cost] raises a TypeError that no handler catches;
    nothing is recorded. *)
Theorem non_numeric_count_escapes_handler
  (c : client) (selected_model : string) (config : model_config) (prompt : string)
  (max_tokens : Z) (temperature : F64.float64)
  (start_time end_time : F64.float64) (now : Z) (history : list usage_data)
  (r : GenerationResult) :
  invoke_bedrock_model_try c (cfg_id config) prompt max_tokens temperature = inr r ->
  is_number (input_tokens r) = false ->
  main_single_shot c selected_model config prompt max_tokens temperature
                   start_time end_time now history
  = Page [ Markdown (text r) ] history
         (Some (Py.TypeError ("unsupported operand type(s) for /: "
                              ++ Py.repr_str (Py.type_name (input_tokens r))
                              ++ " and 'int'"))).
Proof.
  intros Htry Hn.
  apply invoke_bedrock_model_returned in Htry. destruct Htry as (Hres & Hs & _).
  unfold main_single_shot. rewrite Hres, Hs. unfold calculate_cost_dyn.
  destruct (input_tokens r); try discriminate Hn; reflexivity.
Qed.

Lemma non_numeric_count_escapes_handler_witness :
  main_single_shot
    (const_client
       (inr (PyDict [ ("generation", PyStr "Hello!");
                      ("prompt_token_count", PyNone) ]))
       (inr StreamEnd))
    "Llama 2 70B"
    (ModelConfig llama_id F64.lit_0_00195 F64.lit_0_00256 2048 EmptyString)
    "Hi" 50 F64.lit_0_5 F64.lit_0_5 F64.lit_0_7 0 []
  = Page [ Markdown (PyStr "Hello!") ] []
         (Some (Py.TypeError
                  "unsupported operand type(s) for /: 'NoneType' and 'int'")).
Proof.
  apply (non_numeric_count_escapes_handler
           (const_client
              (inr (PyDict [ ("generation", PyStr "Hello!");
                             ("prompt_token_count", PyNone) ]))
              (inr StreamEnd))
           "Llama 2 70B"
           (ModelConfig llama_id F64.lit_0_00195 F64.lit_0_00256 2048 EmptyString)
           "Hi" 50 F64.lit_0_5 F64.lit_0_5 F64.lit_0_7 0 []
           (MkResult (PyStr "Hello!") PyNone (PyInt 0) true None));
    reflexivity.
Defined.

(** X18. The usage history is an append-only log: one run of the handler leaves it
    as it was or appends exactly one entry.  An entry is appended only in
    non-streaming mode, with a non-empty prompt and without an escaping
    exception, and it carries the selected model name and token counts that
    are numbers.  Streaming mode and an empty prompt never touch the history,
    and an empty prompt displays nothing. *)
Theorem usage_history_is_append_only
  (streaming_mode : bool)
  (c : client) (selected_model : string) (config : model_config) (prompt : string)
  (max_tokens : Z) (temperature : F64.float64)
  (start_time end_time : F64.float64) (now : Z) (history : list usage_data) :
  let after :=
    main_generate streaming_mode c selected_model config prompt max_tokens
                  temperature start_time end_time now history in
  (usage_history after = history
   \/ exists entry,
       usage_history after = (history ++ [entry])%list
       /\ streaming_mode = false
       /\ prompt <> EmptyString
       /\ uncaught after = None
       /\ usage_model entry = selected_model
       /\ is_number (usage_input_tokens entry) = true
       /\ is_number (usage_output_tokens entry) = true)
  /\ (streaming_mode = true -> usage_history after = history /\ uncaught after = None)
  /\ (prompt = EmptyString -> after = Page [] history None).
Proof.
  cbv zeta. unfold main_generate.
  destruct prompt as [|ch prompt']; [repeat split; auto; discriminate|].
  destruct streaming_mode; [repeat split; auto; discriminate|].
  split; [|split; discriminate].
  unfold main_single_shot.
  set (r := invoke_bedrock_model c (cfg_id config) (String ch prompt')
                                 max_tokens temperature).
  destruct (success r).
  - destruct (cost <- calculate_cost_dyn (input_tokens r) (output_tokens r) config;;
              len_text <- py_len (text r);;
              ret (UsageData now selected_model (String.length (String ch prompt'))
                             len_text (input_tokens r) (output_tokens r) cost
                             (float_sub end_time start_time)))
      as [e|entry] eqn:Hentry; [left; reflexivity|].
    right. exists entry.
    apply bind_inr in Hentry. destruct Hentry as (cost & Hcost & Hentry).
    apply bind_inr in Hentry. destruct Hentry as (len_text & _ & Hentry).
    inversion Hentry; subst entry; clear Hentry. cbn.
    unfold calculate_cost_dyn in Hcost.
    apply bind_inr in Hcost. destruct Hcost as (a & Ha & Hcost).
    apply bind_inr in Hcost. destruct Hcost as (b & Hb & _).
    apply div_by_1000_number in Ha. apply div_by_1000_number in Hb.
    repeat split; trivial. discriminate.
  - destruct (error r); left; reflexivity.
Qed.

Lemma usage_history_is_append_only_witness :
  usage_history
    (main_generate true canned_client "Claude 3 Sonnet" sonnet_config "Hi" 50
                   F64.lit_0_5 F64.lit_0_5 F64.lit_0_7 0 []) = []
  /\ main_generate false canned_client "Claude 3 Sonnet" sonnet_config EmptyString 50
                   F64.lit_0_5 F64.lit_0_5 F64.lit_0_7 0 []
     = Page [] [] None.
Proof.
  split.
  - apply (proj1 (proj2 (usage_history_is_append_only true canned_client
                           "Claude 3 Sonnet" sonnet_config "Hi" 50
                           F64.lit_0_5 F64.lit_0_5 F64.lit_0_7 0 []))).
    reflexivity.
  - apply (proj2 (proj2 (usage_history_is_append_only false canned_client
                           "Claude 3 Sonnet" sonnet_config EmptyString 50
                           F64.lit_0_5 F64.lit_0_5 F64.lit_0_7 0 []))).
    reflexivity.
Defined.

(* --------------------------------------------------------------------- *)
(** ** The sign of a cost *)
(* --------------------------------------------------------------------- *)

Lemma binary_round_aux_of_nonneg (s : bool) (m e : Z) (l : location) :
  0 <= m ->
  match binary_round_aux 53 1024 s m e l with
  | S754_zero s' | S754_finite s' _ _ | S754_infinity s' => s' = s
  | S754_nan => False
  end.
Proof.
  intros Hm. unfold binary_round_aux.
  destruct (shr_fexp 53 1024 m e l) as [mrs1 e1] eqn:H1.
  apply (shr_fexp_bounds _ _ _ m) in H1;
    [|split; [exact Hm | now apply Z.pow_gt_lin_r] | exact Hm].
  destruct H1 as [Hm1 _].
  pose proof (round_nearest_even_bounds (shr_m mrs1) (loc_of_shr_record mrs1)
                (proj1 Hm1)) as Hr.
  set (m1 := round_nearest_even (shr_m mrs1) (loc_of_shr_record mrs1)) in *.
  destruct (shr_fexp 53 1024 m1 e1 loc_Exact) as [mrs2 e2] eqn:H2.
  apply (shr_fexp_bounds _ _ _ m1) in H2;
    [|split; [lia | apply Z.pow_gt_lin_r; lia] | lia].
  destruct H2 as [Hm2 _].
  destruct (shr_m mrs2) as [|p|p]; [reflexivity| |lia].
  destruct (e2 <=? 1024 - 53); reflexivity.
Qed.

Lemma mul_keeps_nonneg (x p : F64.float64) :
  F64.is_finite x = true -> F64.is_nonneg x = true ->
  F64.is_finite p = true -> F64.is_nonneg p = true ->
  F64.is_nonneg (F64.mul x p) = true.
Proof.
  destruct x as [sx|sx| |sx mx ex], p as [sp|sp| |sp mp ep];
    simpl; try discriminate;
    destruct sx, sp; simpl; try discriminate; intros _ _ _ _; trivial.
  pose proof (binary_round_aux_of_nonneg false (Zpos (mx * mp)) (ex + ep) loc_Exact
                (Pos2Z.is_nonneg _)) as H.
  unfold F64.prec, F64.emax.
  destruct (binary_round_aux 53 1024 false (Zpos (mx * mp)) (ex + ep) loc_Exact);
    simpl; subst; trivial. contradiction.
Qed.

Lemma add_keeps_nonneg (a b : F64.float64) :
  F64.is_nonneg a = true -> F64.is_nonneg b = true ->
  F64.is_nonneg (F64.add a b) = true.
Proof.
  destruct a as [sa|sa| |sa ma ea], b as [sb|sb| |sb mb eb];
    simpl; try discriminate;
    destruct sa, sb; simpl; try discriminate; intros _ _; trivial.
  unfold F64.add, SFadd, F64.prec, F64.emax. cbn [cond_Zopp].
  set (ez := Z.min ea eb).
  change (Zpos (fst (shl_align ma ea ez)) + Zpos (fst (shl_align mb eb ez)))
    with (Zpos (fst (shl_align ma ea ez) + fst (shl_align mb eb ez))).
  cbn [binary_normalize]. unfold binary_round.
  destruct (shl_align _ ez _) as [mz ez'].
  pose proof (binary_round_aux_of_nonneg false (Zpos mz) ez' loc_Exact
                (Pos2Z.is_nonneg _)) as H.
  destruct (binary_round_aux 53 1024 false (Zpos mz) ez' loc_Exact);
    simpl; subst; trivial. contradiction.
Qed.

(** X19. With finite non-negative prices and token counts from 0 up to 2^256 the
    cost is never negative and never NaN: it is [+0.0], a positive double, or
    [+inf] when the product leaves the range of doubles. *)
Theorem cost_is_never_negative
  (input_tokens output_tokens : Z) (config : model_config) :
  0 <= input_tokens < 2 ^ 256 ->
  0 <= output_tokens < 2 ^ 256 ->
  F64.is_finite (input_price_per_1k config) = true ->
  F64.is_nonneg (input_price_per_1k config) = true ->
  F64.is_finite (output_price_per_1k config) = true ->
  F64.is_nonneg (output_price_per_1k config) = true ->
  exists x,
    calculate_cost input_tokens output_tokens config = inr x
    /\ F64.is_nonneg x = true.
Proof.
  intros Hi Ho Hpf Hpn Hqf Hqn.
  destruct (int_true_div_in_range input_tokens Hi) as (a & Ha & Haf & Han).
  destruct (int_true_div_in_range output_tokens Ho) as (b & Hb & Hbf & Hbn).
  unfold calculate_cost. rewrite Ha, Hb. cbn [bind ret].
  eexists. split; [reflexivity|].
  apply add_keeps_nonneg; now apply mul_keeps_nonneg.
Qed.

Lemma cost_is_never_negative_witness :
  exists x, calculate_cost 1500 700 sonnet_config = inr x /\ F64.is_nonneg x = true.
Proof.
  apply (cost_is_never_negative 1500 700 sonnet_config);
    try reflexivity; split; try lia; reflexivity.
Defined.

(* --------------------------------------------------------------------- *)
(** ** The registry *)
(* --------------------------------------------------------------------- *)

(** X21. Every model of [MODELS] is usable: its id belongs to a family, so both
    entry points build a request body for it, and its prices are finite and
    non-negative, so the cost of a call is never negative. *)
Theorem registered_models_are_supported (name : string) (config : model_config) :
  models_get name MODELS = Some config ->
  family_of (cfg_id config) <> None
  /\ (forall prompt max_tokens temperature,
        model_request_body (cfg_id config) prompt max_tokens temperature <> None
        /\ streaming_request_body (cfg_id config) prompt max_tokens temperature
           <> None)
  /\ F64.is_finite (input_price_per_1k config) = true
  /\ F64.is_nonneg (input_price_per_1k config) = true
  /\ F64.is_finite (output_price_per_1k config) = true
  /\ F64.is_nonneg (output_price_per_1k config) = true.
Proof.
  unfold MODELS. cbn [models_get].
  destruct (String.eqb name "Claude 3 Sonnet");
    [intros H; inversion H; repeat split; discriminate|].
  destruct (String.eqb name "Claude 3 Haiku");
    [intros H; inversion H; repeat split; discriminate|].
  destruct (String.eqb name "Llama 2 70B");
    [intros H; inversion H; repeat split; discriminate|].
  destruct (String.eqb name "Titan Text G1 - Express");
    [intros H; inversion H; repeat split; discriminate|].
  discriminate.
Qed.

Lemma registered_models_are_supported_witness :
  family_of titan_id <> None.
Proof.
  apply (proj1 (registered_models_are_supported "Titan Text G1 - Express"
                  (ModelConfig titan_id F64.lit_0_0008 F64.lit_0_0016 8192
                     "AWS native, cost-effective for basic tasks") eq_refl)).
Defined.

(* --------------------------------------------------------------------- *)
(** ** The exceptions of a cost *)
(* --------------------------------------------------------------------- *)

(** X20. Applied to values of any type, [calculate_cost] raises nothing but a
    TypeError, for a token count that is not a number, or an OverflowError,
    for an integer too large for a double; the divisor being the constant
    1000, it never raises ZeroDivisionError.  Counts that are floats, or
    integers from 0 up to 2^256, always give a cost. *)
Theorem cost_raises_only_type_or_overflow
  (input_tokens output_tokens : pyval) (config : model_config) :
  (forall e,
      calculate_cost_dyn input_tokens output_tokens config = inl e ->
      exn_class e = "TypeError" \/ exn_class e = "OverflowError")
  /\ (forall x y,
        input_tokens = PyFloat x -> output_tokens = PyFloat y ->
        exists cost, calculate_cost_dyn input_tokens output_tokens config = inr cost)
  /\ (forall i o,
        input_tokens = PyInt i -> output_tokens = PyInt o ->
        0 <= i < 2 ^ 256 -> 0 <= o < 2 ^ 256 ->
        exists cost, calculate_cost_dyn input_tokens output_tokens config = inr cost).
Proof.
  assert (Hdiv : forall v e, div_by_1000 v = inl e ->
                 exn_class e = "TypeError" \/ exn_class e = "OverflowError").
  { intros v e. unfold div_by_1000, int_true_div.
    change (1000 =? 0) with false. cbv iota.
    destruct v as [ |b|n|x|s|xs|kvs]; try (intros H; inversion H; now left).
    - destruct (F64.div (F64.of_int_raw (Z.b2z b)) (F64.of_int_raw 1000));
        intros H; inversion H. now right.
    - destruct (F64.div (F64.of_int_raw n) (F64.of_int_raw 1000));
        intros H; inversion H. now right. }
  split; [|split].
  - intros e. unfold calculate_cost_dyn. intros H.
    apply bind_inl in H. destruct H as [H | (a & _ & H)]; [now apply Hdiv in H|].
    apply bind_inl in H. destruct H as [H | (b & _ & H)]; [now apply Hdiv in H|].
    discriminate.
  - intros x y -> ->. eexists. reflexivity.
  - intros i o -> -> Hi Ho. rewrite calculate_cost_dyn_int.
    now apply calculate_cost_in_range.
Qed.

Lemma cost_raises_only_type_or_overflow_witness :
  exn_class (Py.TypeError "unsupported operand type(s) for /: 'str' and 'int'")
  = "TypeError"
  \/ exn_class (Py.TypeError "unsupported operand type(s) for /: 'str' and 'int'")
     = "OverflowError".
Proof.
  apply (proj1 (cost_raises_only_type_or_overflow (PyStr "12") (PyInt 3) sonnet_config)).
  reflexivity.
Defined.
